(** * check_asa_sessions.py: a shallow embedding and its specification

    The plugin polls a Cisco ASA twice with [snmpwalk], parses the two
    answers, picks the 'critical high' threshold from the device model and
    reports one Icinga status.  The embedding below follows
    [src/check_asa_sessions.py] statement by statement:

    - Python [str] is a list of code points, [bytes] a list of bytes;
    - the dictionary [snmp_check_values] is a [gmap] from [str] to tagged
      values (it holds strings, integers and booleans side by side, and
      the model table lives in the same key space as the settings);
    - exceptions, [sys.exit], the mutable dictionary and standard output
      are threaded by a small state-and-outcome monad [py];
    - [subprocess.check_output] is an oracle given as a parameter. *)

From Stdlib Require Import ZArith NArith Lia List String Ascii Bool.
From Stdlib.Strings Require Import Byte.
From stdpp Require Import base option list gmap fin_maps.

Local Open Scope Z_scope.

(* ===================================================================== *)
(** ** Python text: [str] and [bytes] *)
(* ===================================================================== *)

Module PyText.

(** A Python [str] is a sequence of Unicode code points. *)
Abbreviation str := (list N).

(** A Python [bytes] object. *)
Abbreviation bytes := (list byte).

(** Source literals are ASCII: [lit "abc"] is the [str] 'abc'. *)
Definition lit (x : string) : str :=
  List.map N_of_ascii (list_ascii_of_string x).

(** [blit "abc"] is the [bytes] b'abc'. *)
Definition blit (x : string) : bytes := list_byte_of_string x.

Local Open Scope N_scope.

(** [lo <= c <= hi]. *)
Definition in_range (lo hi c : N) : bool := (lo <=? c) && (c <=? hi).

(** Continuation byte 10xxxxxx of UTF-8. *)
Definition is_cont (b : N) : bool := in_range 0x80 0xBF b.

(** The six payload bits of a continuation byte. *)
Definition cont_bits (b : N) : N := N.land b 0x3F.

(** [bytes.decode()] with the default codec (UTF-8, errors='strict') on the
    byte values: [None] stands for [UnicodeDecodeError].  Overlong forms,
    surrogates and code points above U+10FFFF are rejected, as CPython
    does. *)
Fixpoint utf8_decode (bs : list N) : option str :=
  match bs with
  | [] => Some []
  | b0 :: t0 =>
    if b0 <? 0x80 then cons b0 <$> utf8_decode t0
    else if in_range 0xC2 0xDF b0 then
      match t0 with
      | b1 :: t1 =>
        if is_cont b1
        then cons (N.shiftl (N.land b0 0x1F) 6 + cont_bits b1) <$> utf8_decode t1
        else None
      | _ => None
      end
    else if in_range 0xE0 0xEF b0 then
      match t0 with
      | b1 :: b2 :: t2 =>
        let c := N.shiftl (N.land b0 0x0F) 12
                 + N.shiftl (cont_bits b1) 6 + cont_bits b2 in
        if is_cont b1 && is_cont b2 && (0x800 <=? c)
           && negb (in_range 0xD800 0xDFFF c)
        then cons c <$> utf8_decode t2
        else None
      | _ => None
      end
    else if in_range 0xF0 0xF4 b0 then
      match t0 with
      | b1 :: b2 :: b3 :: t3 =>
        let c := N.shiftl (N.land b0 0x07) 18
                 + N.shiftl (cont_bits b1) 12
                 + N.shiftl (cont_bits b2) 6 + cont_bits b3 in
        if is_cont b1 && is_cont b2 && is_cont b3
           && in_range 0x10000 0x10FFFF c
        then cons c <$> utf8_decode t3
        else None
      | _ => None
      end
    else None
  end.

(** [b.decode()]. *)
Definition decode (b : bytes) : option str :=
  utf8_decode (List.map Byte.to_N b).

(** [str.isspace] on one code point: the whitespace that [str.split()]
    without a separator splits on. *)
Definition isspace (c : N) : bool :=
  in_range 0x09 0x0D c || in_range 0x1C 0x20 c
  || (c =? 0x85) || (c =? 0xA0) || (c =? 0x1680)
  || in_range 0x2000 0x200A c || (c =? 0x2028) || (c =? 0x2029)
  || (c =? 0x202F) || (c =? 0x205F) || (c =? 0x3000).

(** [s.split()]: the maximal runs of non-whitespace, in order.  [cur] is
    the run being read, reversed. *)
Fixpoint split_ws_aux (cur : str) (s : str) : list str :=
  match s with
  | [] => match cur with [] => [] | _ => [rev cur] end
  | c :: t =>
    if isspace c
    then match cur with
         | [] => split_ws_aux [] t
         | _ => rev cur :: split_ws_aux [] t
         end
    else split_ws_aux (c :: cur) t
  end.

(** [s.split()]. *)
Definition split_ws (s : str) : list str := split_ws_aux [] s.

(** [s.split(sep)] for a one-character separator: every occurrence cuts,
    empty pieces are kept, the result is never empty. *)
Fixpoint split_on_aux (sep : N) (cur : str) (s : str) : list str :=
  match s with
  | [] => [rev cur]
  | c :: t =>
    if c =? sep then rev cur :: split_on_aux sep [] t
    else split_on_aux sep (c :: cur) t
  end.

(** [s.split(sep)]. *)
Definition split_on (sep : N) (s : str) : list str := split_on_aux sep [] s.

(** The code point of the double quote. *)
Definition dquote : N := 0x22.

(** Code points of the digit zero of each Unicode decimal-digit block
    (general category Nd, Unicode 14.0 as shipped with CPython 3.11); the
    digits 0 to 9 of a block are consecutive. *)
Definition decimal_zeros : list N :=
  [0x30; 0x660; 0x6F0; 0x7C0; 0x966; 0x9E6; 0xA66; 0xAE6; 0xB66; 0xBE6;
   0xC66; 0xCE6; 0xD66; 0xDE6; 0xE50; 0xED0; 0xF20; 0x1040; 0x1090;
   0x17E0; 0x1810; 0x1946; 0x19D0; 0x1A80; 0x1A90; 0x1B50; 0x1BB0;
   0x1C40; 0x1C50; 0xA620; 0xA8D0; 0xA900; 0xA9D0; 0xA9F0; 0xAA50;
   0xABF0; 0xFF10; 0x104A0; 0x10D30; 0x11066; 0x110F0; 0x11136; 0x111D0;
   0x112F0; 0x11450; 0x114D0; 0x11650; 0x116C0; 0x11730; 0x118E0;
   0x11950; 0x11C50; 0x11D50; 0x11DA0; 0x16A60; 0x16AC0; 0x16B50;
   0x1D7CE; 0x1D7D8; 0x1D7E2; 0x1D7EC; 0x1D7F6; 0x1E140; 0x1E2F0;
   0x1E950; 0x1FBF0].

(** The decimal value of a code point, if it is a decimal digit. *)
Definition decimal_value (c : N) : option N :=
  (fun z => c - z) <$> List.find (fun z => in_range z (z + 9) c) decimal_zeros.

(** Whitespace that [int()] strips at both ends of its argument. *)
Definition int_space (c : N) : bool :=
  isspace c && negb (in_range 0x1C 0x1F c).

(** The digits of an [int()] literal after the sign: decimal digits, with
    single underscores allowed between two digits.  [acc] is the value read
    so far, [cnt] the number of digits read, [prev] tells whether the
    previous character was a digit. *)
Fixpoint int_digits (acc : N) (cnt : nat) (prev : bool) (s : str)
  : option (N * nat) :=
  match s with
  | [] => if prev then Some (acc, cnt) else None
  | c :: t =>
    match decimal_value c with
    | Some d => int_digits (10 * acc + d) (S cnt) true t
    | None =>
      if (c =? 0x5F) && prev then int_digits acc cnt false t else None
    end
  end.

(** CPython 3.11 refuses to convert a decimal string of more than
    [sys.get_int_max_str_digits()] digits (4300 unless reconfigured);
    earlier interpreters have no such limit. *)
Definition int_max_str_digits : nat := 4300.

(** Drop the leading whitespace of an [int()] argument. *)
Fixpoint drop_int_space (s : str) : str :=
  match s with
  | c :: t => if int_space c then drop_int_space t else s
  | [] => []
  end.

(** Drop it at both ends. *)
Definition strip_int_space (s : str) : str :=
  rev (drop_int_space (rev (drop_int_space s))).

(** [int(s)] for a [str]: [None] stands for [ValueError]. *)
Definition py_int (s : str) : option Z :=
  let '(neg, body) :=
    match strip_int_space s with
    | 0x2D :: t => (true, t)
    | 0x2B :: t => (false, t)
    | t => (false, t)
    end in
  match int_digits 0 0 false body with
  | Some (n, cnt) =>
    if (int_max_str_digits <? cnt)%nat then None
    else Some (if neg then (- Z.of_N n)%Z else Z.of_N n)
  | None => None
  end.

End PyText.

Import PyText.

(* ===================================================================== *)
(** ** Values, exceptions and the interpreter state *)
(* ===================================================================== *)

(** What [snmp_check_values] holds: integers (thresholds and the model
    table), booleans (the two flags) and strings (community, host, OIDs). *)
Inductive value :=
| VInt (z : Z)
| VBool (b : bool)
| VStr (s : str).

(** The exceptions the program can meet.  [SubprocessError] stands for
    whatever [subprocess.check_output] raises: a non-zero exit status of
    snmpwalk, a missing executable, and so on. *)
Inductive exn :=
| KeyError (k : str)
| IndexError
| ValueError
| TypeError
| UnicodeDecodeError
| SubprocessError.

(** What the program writes to standard output.  [PrintCall args] is one call
    [print(a, b, ...)]: the arguments separated by a space, then a newline.
    [DebugDump] stands for the lines of the DEBUG OUTPUT block (lines
    99 to 110 of the source), which prints the settings sorted by key, the
    two raw answers and the two parsed values; it only reads them. *)
Inductive output :=
| PrintCall (args : list str)
| DebugDump (settings : gmap str value)
            (raw_sessions : bytes) (sessions : str)
            (raw_model : bytes) (model : str).

(** The state: the dictionary [snmp_check_values], which
    [check_asa_sessions] receives by reference and updates in place, and
    what has been printed so far (oldest first). *)
Record state := State {
  dict : gmap str value;
  stdout : list output
}.

(** How a statement ends: normally, with an exception in flight, or with
    [SystemExit] raised by [sys.exit(code)]. *)
Inductive outcome (A : Type) :=
| Normal (a : A)
| Raised (e : exn)
| SystemExit (code : Z).
Arguments Normal {A} a.
Arguments Raised {A} e.
Arguments SystemExit {A} code.

(** A statement or expression: from the state before to how it ends and
    the state after. *)
Definition py (A : Type) : Type := state -> outcome A * state.

(** An expression that evaluates to [a]. *)
Definition ret {A} (a : A) : py A := fun st => (Normal a, st).

(** [m] and then [k]: an exception or an exit of [m] skips [k]. *)
Definition bind {A B} (m : py A) (k : A -> py B) : py B :=
  fun st =>
    match m st with
    | (Normal a, st') => k a st'
    | (Raised e, st') => (Raised e, st')
    | (SystemExit c, st') => (SystemExit c, st')
    end.

Declare Scope py_scope.
Delimit Scope py_scope with py.
Notation "x <- m ;; k" := (bind m (fun x => k))
  (at level 100, m at next level, right associativity) : py_scope.
Notation "m ;;; k" := (bind m (fun _ => k))
  (at level 100, right associativity) : py_scope.
Local Open Scope py_scope.

(** [raise e]. *)
Definition raise {A} (e : exn) : py A := fun st => (Raised e, st).

(** [sys.exit(code)]. *)
Definition sys_exit {A} (code : Z) : py A := fun st => (SystemExit code, st).

(** [try: body / except: handler].  A bare [except:] catches every
    exception, [SystemExit] included. *)
Definition try_except {A} (body handler : py A) : py A :=
  fun st =>
    match body st with
    | (Normal a, st') => (Normal a, st')
    | (_, st') => handler st'
    end.

(** [snmp_check_values[k]]. *)
Definition getitem (k : str) : py value :=
  fun st =>
    match dict st !! k with
    | Some v => (Normal v, st)
    | None => (Raised (KeyError k), st)
    end.

(** [snmp_check_values[k] = v]. *)
Definition setitem (k : str) (v : value) : py unit :=
  fun st => (Normal tt, State (<[k := v]> (dict st)) (stdout st)).

(** Append to standard output. *)
Definition emit (o : output) : py unit :=
  fun st => (Normal tt, State (dict st) (stdout st ++ [o])).

(** [print(a, b)]. *)
Definition print2 (a b : str) : py unit := emit (PrintCall [a; b]).

(** Lift a partial library function: [None] raises [e]. *)
Definition lift {A} (e : exn) (o : option A) : py A :=
  match o with
  | Some a => ret a
  | None => raise e
  end.

(* ===================================================================== *)
(** ** Python operators on values *)
(* ===================================================================== *)

(** [bool] is a subclass of [int]: [False] is 0 and [True] is 1. *)
Definition int_of_bool (b : bool) : Z := if b then 1 else 0.

(** Truth value of [v] in [if v:]. *)
Definition truthy (v : value) : bool :=
  match v with
  | VInt z => negb (z =? 0)
  | VBool b => b
  | VStr s => match s with [] => false | _ => true end
  end.

(** [v == True] and [v == False]: numeric equality on integers and
    booleans; a string is equal to neither. *)
Definition eq_bool (v : value) (b : bool) : bool :=
  match v with
  | VInt z => z =? int_of_bool b
  | VBool b' => Bool.eqb b' b
  | VStr _ => false
  end.

(** The number an ordering comparison with an [int] sees; a [str] has
    none, and the comparison raises [TypeError]. *)
Definition as_number (v : value) : option Z :=
  match v with
  | VInt z => Some z
  | VBool b => Some (int_of_bool b)
  | VStr _ => None
  end.

(** The text of a [str] value. *)
Definition as_str (v : value) : option str :=
  match v with
  | VStr s => Some s
  | _ => None
  end.

(** [n <= v], [n < v], [n >= v] with an [int] on the left, and [v < n],
    [v <= n] with an [int] on the right. *)
Definition int_le (n : Z) (v : value) : py bool :=
  z <- lift TypeError (as_number v) ;; ret (n <=? z).
Definition int_lt (n : Z) (v : value) : py bool :=
  z <- lift TypeError (as_number v) ;; ret (n <? z).
Definition int_ge (n : Z) (v : value) : py bool :=
  z <- lift TypeError (as_number v) ;; ret (n >=? z).
Definition lt_int (v : value) (n : Z) : py bool :=
  z <- lift TypeError (as_number v) ;; ret (z <? n).
Definition le_int (v : value) (n : Z) : py bool :=
  z <- lift TypeError (as_number v) ;; ret (z <=? n).

(** ['literal' + v]: concatenation when [v] is a [str], [TypeError]
    otherwise. *)
Definition str_add (s : str) (v : value) : py str :=
  t <- lift TypeError (as_str v) ;; ret (s ++ t).

(** [int(s)]. *)
Definition int (s : str) : py Z := lift ValueError (py_int s).

(** [l[i]] on a list. *)
Definition index {A} (l : list A) (i : nat) : py A :=
  lift IndexError (l !! i).

(* ===================================================================== *)
(** ** The program *)
(* ===================================================================== *)

(** Lines 17 to 39: the five reporters print one status line and leave
    with the Icinga exit code.  They never return, hence any result type. *)
Definition ok {A} (msg : str) : py A :=
  print2 (lit "OK:") msg ;;; sys_exit 0.

Definition warning {A} (msg : str) : py A :=
  print2 (lit "WARNING:") msg ;;; sys_exit 1.

Definition critical {A} (msg : str) : py A :=
  print2 (lit "CRITICAL:") msg ;;; sys_exit 2.

Definition unknown {A} (msg : str) : py A :=
  print2 (lit "UNKNOWN:") msg ;;; sys_exit 3.

Definition error {A} (msg : str) : py A :=
  print2 (lit "ERROR:") msg ;;; sys_exit 3.

(** The outside world: [w k argv] is what the [k]-th call (counted from 0)
    of [subprocess.check_output(argv)] returns, or [None] when it raises. *)
Abbreviation world := (nat -> list str -> option bytes).

(** [subprocess.check_output(argv)]: the arguments must all be strings. *)
Definition check_output (w : world) (k : nat) (argv : list value) : py bytes :=
  args <- lift TypeError (mapM as_str argv) ;;
  lift SubprocessError (w k args).

(** The one-character string of a line feed. *)
Definition newline : str := [0x0A%N].

(** Lines 44 to 73: the two polls, sessions first, and their handler. *)
Definition poll (w : world) : py (bytes * bytes) :=
  try_except
    (community <- getitem (lit "snmp_community") ;;
     host <- getitem (lit "snmp_host") ;;
     oid <- getitem (lit "snmp_oid_asa_sessions") ;;
     command_output_sessions <-
       check_output w 0 [VStr (lit "snmpwalk"); VStr (lit "-v");
                         VStr (lit "2c"); VStr (lit "-c");
                         community; host; oid] ;;
     community <- getitem (lit "snmp_community") ;;
     host <- getitem (lit "snmp_host") ;;
     oid <- getitem (lit "snmp_oid_asa_model") ;;
     command_output_model <-
       check_output w 1 [VStr (lit "snmpwalk"); VStr (lit "-v");
                         VStr (lit "2c"); VStr (lit "-c");
                         community; host; oid] ;;
     ret (command_output_sessions, command_output_model))
    (let msg := lit "Something went wrong with subprocess command 'snmpwalk'" in
     host <- getitem (lit "snmp_host") ;;
     line <- str_add (newline ++ lit "Is the host ") host ;;
     let msg := msg ++ (line ++ lit " reachable?") in
     let msg := msg ++ (newline
                        ++ lit "Is it configured to accept SNMP polls from this host?") in
     community <- getitem (lit "snmp_community") ;;
     line <- str_add (newline ++ lit "Is SNMP community string '") community ;;
     let msg := msg ++ (line ++ lit "' valid?") in
     error msg).

(** Lines 76 to 85: the fourth whitespace-separated field of each answer;
    of the model answer, what stands between its first two double quotes. *)
Definition parse (command_output_sessions command_output_model : bytes)
  : py (str * str) :=
  try_except
    (text <- lift UnicodeDecodeError (decode command_output_sessions) ;;
     current_asa_sessions <- index (split_ws text) 3 ;;
     text <- lift UnicodeDecodeError (decode command_output_model) ;;
     field <- index (split_ws text) 3 ;;
     asa_model <- index (split_on dquote field) 1 ;;
     ret (current_asa_sessions, asa_model))
    (error (lit "Something went wrong parsing data. Probably wrong SNMP OID for this device.")).

(** Lines 88 to 94: unless 'critical high' was set by hand, overwrite it
    with the entry of the model, or with the entry 'UNKNOWN_MODEL' when the
    entry of the model is falsy. *)
Definition resolve_critical_high (asa_model : str) : py unit :=
  flag <- getitem (lit "high_threshold_set") ;;
  if eq_bool flag false then
    entry <- getitem asa_model ;;
    if truthy entry then
      entry <- getitem asa_model ;;
      setitem (lit "critical_high") entry
    else
      fallback <- getitem (lit "UNKNOWN_MODEL") ;;
      setitem (lit "critical_high") fallback
  else ret tt.

(** Lines 96 to 110: the debug output. *)
Definition debug_output (command_output_sessions : bytes)
    (current_asa_sessions : str) (command_output_model : bytes)
    (asa_model : str) : py unit :=
  flag <- getitem (lit "debug") ;;
  if eq_bool flag true then
    fun st =>
      emit (DebugDump (dict st) command_output_sessions current_asa_sessions
                      command_output_model asa_model) st
  else ret tt.

(** Line 113: the status message with its perfdata. *)
Definition message (current_asa_sessions asa_model : str) : str :=
  lit "Current sessions: " ++ current_asa_sessions ++ lit " MODEL: "
  ++ asa_model ++ lit " | current_sessions=" ++ current_asa_sessions.

(** Lines 115 to 125: five guarded statements in a row.  In a chained
    comparison [a < b <= c] the operand [c] is looked up and compared only
    when [a < b] holds. *)
Definition evaluate (current_asa_sessions msg : str) : py unit :=
  (* line 116 *)
  n <- int current_asa_sessions ;;
  critical_low <- getitem (lit "critical_low") ;;
  c <- int_le n critical_low ;;
  (if c then critical msg else ret tt) ;;;
  (* line 118 *)
  critical_low <- getitem (lit "critical_low") ;;
  n <- int current_asa_sessions ;;
  c <- lt_int critical_low n ;;
  c <- (if c then warning_low <- getitem (lit "warning_low") ;;
                  int_le n warning_low
        else ret false) ;;
  (if c then warning msg else ret tt) ;;;
  (* line 120 *)
  warning_low <- getitem (lit "warning_low") ;;
  n <- int current_asa_sessions ;;
  c <- lt_int warning_low n ;;
  c <- (if c then warning_high <- getitem (lit "warning_high") ;;
                  int_lt n warning_high
        else ret false) ;;
  (if c then ok msg else ret tt) ;;;
  (* line 122 *)
  warning_high <- getitem (lit "warning_high") ;;
  n <- int current_asa_sessions ;;
  c <- le_int warning_high n ;;
  c <- (if c then critical_high <- getitem (lit "critical_high") ;;
                  int_lt n critical_high
        else ret false) ;;
  (if c then warning msg else ret tt) ;;;
  (* line 124 *)
  n <- int current_asa_sessions ;;
  critical_high <- getitem (lit "critical_high") ;;
  c <- int_ge n critical_high ;;
  (if c then critical msg else ret tt).

(** Lines 42 to 125. *)
Definition check_asa_sessions (w : world) : py unit :=
  outputs <- poll w ;;
  let command_output_sessions := fst outputs in
  let command_output_model := snd outputs in
  parsed <- parse command_output_sessions command_output_model ;;
  let current_asa_sessions := fst parsed in
  let asa_model := snd parsed in
  resolve_critical_high asa_model ;;;
  debug_output command_output_sessions current_asa_sessions
               command_output_model asa_model ;;;
  evaluate current_asa_sessions (message current_asa_sessions asa_model).

(** What [argparse] hands to [main]: the two positional strings, the four
    optional integers ([None] when the option is absent) and the debug
    switch. *)
Record Namespace := {
  args_SNMP_COMMUNITY : str;
  args_HOST : str;
  args_warning : option Z;
  args_critical : option Z;
  args_wl : option Z;
  args_cl : option Z;
  args_debug : bool
}.

(** [if args.x:] for an optional integer: absent and 0 are both falsy. *)
Definition arg_truthy (a : option Z) : bool :=
  match a with
  | Some z => truthy (VInt z)
  | None => false
  end.

(** The integer of an option that is present. *)
Definition arg_value (a : option Z) : value := VInt (default 0 a).

(** Lines 148 to 166: the dictionary literal. *)
Definition required_values (args : Namespace) : gmap str value :=
  list_to_map
    [ (lit "snmp_community", VStr (args_SNMP_COMMUNITY args));
      (lit "snmp_host", VStr (args_HOST args));
      (lit "snmp_oid_asa_model", VStr (lit ".1.3.6.1.2.1.47.1.1.1.1.13.1"));
      (lit "snmp_oid_asa_sessions",
        VStr (lit ".1.3.6.1.4.1.9.9.147.1.2.2.2.1.5.40.6"));
      (lit "warning_low", VInt (-1));
      (lit "warning_high", VInt 50000);
      (lit "critical_low", VInt (-2));
      (lit "critical_high", VInt 100000);
      (lit "high_threshold_set", VBool false);
      (lit "debug", VBool false);
      (lit "ASA5505", VInt 10000);
      (lit "ASA5510", VInt 50000);
      (lit "ASA5512", VInt 280000);
      (lit "ASA5520", VInt 280000);
      (lit "ASA5540", VInt 400000);
      (lit "ASA5550", VInt 650000);
      (lit "UNKNOWN_MODEL", VInt 800000) ].

(** Lines 168 to 182: the overrides from the command line. *)
Definition snmp_check_values (args : Namespace) : gmap str value :=
  let d := required_values args in
  let d := if arg_truthy (args_wl args)
           then <[lit "warning_low" := arg_value (args_wl args)]> d else d in
  let d := if arg_truthy (args_cl args)
           then <[lit "critical_low" := arg_value (args_cl args)]> d else d in
  let d := if arg_truthy (args_warning args)
           then <[lit "warning_high" := arg_value (args_warning args)]> d
           else d in
  let d := if arg_truthy (args_critical args)
           then <[lit "high_threshold_set" := VBool true]>
                  (<[lit "critical_high" := arg_value (args_critical args)]> d)
           else d in
  let d := if args_debug args then <[lit "debug" := VBool true]> d else d in
  d.

(** Lines 128 to 185: [main] builds the dictionary and runs the check on
    an empty standard output. *)
Definition main (args : Namespace) (w : world) : outcome unit * state :=
  check_asa_sessions w (State (snmp_check_values args) []).

(** The exit status of the interpreter: the argument of [sys.exit], 1 after
    an exception nobody caught (the traceback goes to standard error), 0
    when the script runs to its end. *)
Definition exit_status {A} (o : outcome A) : Z :=
  match o with
  | Normal _ => 0
  | Raised _ => 1
  | SystemExit code => code
  end.

(* ===================================================================== *)
(** ** The classification as the specification words it *)
(* ===================================================================== *)

(** The four severity levels of the monitoring supervisor. *)
Inductive level := OK | WARNING | CRITICAL | UNKNOWN.

(** The fixed exit-code contract: 0, 1, 2, 3. *)
Definition exit_code (l : level) : Z :=
  match l with
  | OK => 0
  | WARNING => 1
  | CRITICAL => 2
  | UNKNOWN => 3
  end.

(** The first word of a status line. *)
Definition label (l : level) : str :=
  match l with
  | OK => lit "OK:"
  | WARNING => lit "WARNING:"
  | CRITICAL => lit "CRITICAL:"
  | UNKNOWN => lit "UNKNOWN:"
  end.

(** The reporter of a level. *)
Definition report {A} (l : level) (msg : str) : py A :=
  match l with
  | OK => ok msg
  | WARNING => warning msg
  | CRITICAL => critical msg
  | UNKNOWN => unknown msg
  end.

(** The five bands in their listed order, each with its condition on the
    session count [n] and its verdict. *)
Definition bands (n critical_low warning_low warning_high critical_high : Z)
  : list (bool * level) :=
  [ (n <=? critical_low, CRITICAL);
    ((critical_low <? n) && (n <=? warning_low), WARNING);
    ((warning_low <? n) && (n <? warning_high), OK);
    ((warning_high <=? n) && (n <? critical_high), WARNING);
    (n >=? critical_high, CRITICAL) ].

(** First matching band in listed order wins. *)
Definition first_match (bs : list (bool * level)) : option level :=
  snd <$> List.find fst bs.

(** The state after one status line. *)
Definition printed (st : state) (l : level) (msg : str) : state :=
  State (dict st) (stdout st ++ [PrintCall [label l; msg]]).

(** A status line of one of the levels. *)
Definition is_status (o : output) : bool :=
  match o with
  | PrintCall [a; _] =>
    bool_decide (a = lit "OK:") || bool_decide (a = lit "WARNING:")
    || bool_decide (a = lit "CRITICAL:") || bool_decide (a = lit "UNKNOWN:")
    || bool_decide (a = lit "ERROR:")
  | _ => false
  end.

(* ===================================================================== *)
(** ** Sample inputs *)
(* ===================================================================== *)

(** The command line [check_asa_sessions.py public 10.0.0.1]. *)
Definition sample_args : Namespace :=
  {| args_SNMP_COMMUNITY := lit "public";
     args_HOST := lit "10.0.0.1";
     args_warning := None;
     args_critical := None;
     args_wl := None;
     args_cl := None;
     args_debug := false |}.

(** An answer of snmpwalk whose value field (the fourth one) is [value]. *)
Definition answer (oid type : string) (value : bytes) : bytes :=
  blit oid ++ blit " = " ++ blit type ++ blit " " ++ value.

(** The answers of a device to the session poll and to the model poll. *)
Definition sessions_answer (count : string) : bytes :=
  answer "SNMPv2-SMI::enterprises.9.9.147.1.2.2.2.1.5.40.6" "Gauge32:"
         (blit count).

Definition model_answer (model : string) : bytes :=
  answer "SNMPv2-SMI::mib-2.47.1.1.1.1.13.1" "STRING:"
         ([x22] ++ blit model ++ [x22]).

(** A device that reports the counter [count] and the model [model]. *)
Definition device (count model : string) : world :=
  fun k _ =>
    match k with
    | O => Some (sessions_answer count)
    | _ => Some (model_answer model)
    end.

(** The state in which [main] starts [check_asa_sessions]. *)
Definition initial (args : Namespace) : state :=
  State (snmp_check_values args) [].

(** The command line [-c 1000]. *)
Definition args_critical_1000 : Namespace :=
  {| args_SNMP_COMMUNITY := lit "public";
     args_HOST := lit "10.0.0.1";
     args_warning := None;
     args_critical := Some 1000;
     args_wl := None;
     args_cl := None;
     args_debug := false |}.

(** The command line [-c 0]. *)
Definition args_critical_0 : Namespace :=
  {| args_SNMP_COMMUNITY := lit "public";
     args_HOST := lit "10.0.0.1";
     args_warning := None;
     args_critical := Some 0;
     args_wl := None;
     args_cl := None;
     args_debug := false |}.

(** What snmpwalk prints, with exit status 0, for an OID the agent does
    not have. *)
Definition no_such_object : bytes :=
  blit "SNMPv2-SMI::enterprises.9.9.147.1.2.2.2.1.5.40.6 = No Such Object available on this agent at this OID".

(** A device without the session counter that reports the model ASA5510. *)
Definition device_without_counter : world :=
  fun k _ =>
    match k with
    | O => Some no_such_object
    | _ => Some (model_answer "ASA5510")
    end.

(* ===================================================================== *)
(** ** Properties of runs *)
(* ===================================================================== *)

(** [m] takes a dictionary that satisfies [P] to one related to it by
    [R]: [R d d'] relates the dictionary before to the dictionary after. *)
Definition keeps (P : gmap str value -> Prop)
    (R : gmap str value -> gmap str value -> Prop) {A} (m : py A) : Prop :=
  forall st, P (dict st) -> R (dict st) (dict (snd (m st))).

(** The dictionaries agree on every key but [k0]. *)
Definition agree_off (k0 : str) (d d' : gmap str value) : Prop :=
  forall k, k <> k0 -> d' !! k = d !! k.

(** 'high_threshold_set' is True. *)
Definition flag_set (d : gmap str value) : Prop :=
  d !! lit "high_threshold_set" = Some (VBool true).

(** The two OIDs of lines 151 and 152. *)
Definition snmp_oid_asa_model : str := lit ".1.3.6.1.2.1.47.1.1.1.1.13.1".

Definition snmp_oid_asa_sessions : str :=
  lit ".1.3.6.1.4.1.9.9.147.1.2.2.2.1.5.40.6".

(** The command line of snmpwalk for an OID. *)
Definition snmpwalk_argv (community host oid : str) : list str :=
  [lit "snmpwalk"; lit "-v"; lit "2c"; lit "-c"; community; host; oid].

(** The diagnostic of lines 68 to 71. *)
Definition poll_error_message (host community : str) : str :=
  lit "Something went wrong with subprocess command 'snmpwalk'"
  ++ ((newline ++ lit "Is the host ") ++ host) ++ lit " reachable?"
  ++ newline ++ lit "Is it configured to accept SNMP polls from this host?"
  ++ ((newline ++ lit "Is SNMP community string '") ++ community)
  ++ lit "' valid?".

(** [sub] occurs in [s]. *)
Definition contains (s sub : str) : Prop :=
  exists pre suf : str, s = pre ++ sub ++ suf.

(** A host that answers no poll. *)
Definition unreachable : world := fun _ _ => None.

(** The status words and their exit codes, as lines 17 to 39 pair them. *)
Definition reporters : list (str * Z) :=
  [ (lit "OK:", 0); (lit "WARNING:", 1); (lit "CRITICAL:", 2);
    (lit "UNKNOWN:", 3); (lit "ERROR:", 3) ].

(** No status line has been printed. *)
Definition clean (out : list output) : Prop :=
  List.forallb (fun o => negb (is_status o)) out = true.

(** A run ends well when, if it ends with [sys.exit(code)], its last
    output is the one status line it printed and [code] is the code of
    that line's word, and when otherwise it printed no status line. *)
Definition one_verdict {A} (r : outcome A * state) : Prop :=
  match fst r with
  | SystemExit code =>
    exists (pre : list output) (word msg : str),
      stdout (snd r) = pre ++ [PrintCall [word; msg]]
      /\ In (word, code) reporters
      /\ clean pre
  | _ => clean (stdout (snd r))
  end.

(** [m] prints no status line and does not exit. *)
Definition quiet {A} (m : py A) : Prop :=
  forall st, clean (stdout st) ->
    clean (stdout (snd (m st))) /\ forall c, fst (m st) <> SystemExit c.

(** A run of [m] that starts with no status line printed ends well. *)
Definition verdict_ok {A} (m : py A) : Prop :=
  forall st, clean (stdout st) -> one_verdict (m st).

(** Whenever [m] leaves through [sys.exit], the code is [code]. *)
Definition exits_with (code : Z) {A} (m : py A) : Prop :=
  forall st, match fst (m st) with SystemExit c => c = code | _ => True end.

(* ===================================================================== *)
(** ** The command line, the answers and the exit status *)
(* ===================================================================== *)

(** What an optional integer of the command line amounts to: the value
    given, unless it is absent or 0; then [dflt]. *)
Definition effective (a : option Z) (dflt : Z) : Z :=
  match a with
  | Some z => if z =? 0 then dflt else z
  | None => dflt
  end.

(** The keys of the dictionary literal of lines 148 to 166. *)
Definition setting_keys : list str :=
  [ lit "snmp_community"; lit "snmp_host"; lit "snmp_oid_asa_model";
    lit "snmp_oid_asa_sessions"; lit "warning_low"; lit "warning_high";
    lit "critical_low"; lit "critical_high"; lit "high_threshold_set";
    lit "debug"; lit "ASA5505"; lit "ASA5510"; lit "ASA5512"; lit "ASA5520";
    lit "ASA5540"; lit "ASA5550"; lit "UNKNOWN_MODEL" ].

(** The model entries of lines 159 to 164. *)
Definition model_table : list (str * Z) :=
  [ (lit "ASA5505", 10000); (lit "ASA5510", 50000); (lit "ASA5512", 280000);
    (lit "ASA5520", 280000); (lit "ASA5540", 400000);
    (lit "ASA5550", 650000) ].

(** What the DEBUG OUTPUT block adds to standard output. *)
Definition debug_lines (debug : bool) (d : gmap str value)
    (raw_sessions : bytes) (sessions : str) (raw_model : bytes) (model : str)
  : list output :=
  if debug then [DebugDump d raw_sessions sessions raw_model model] else [].

(** No whitespace in a string. *)
Definition no_space (s : str) : Prop := Forall (fun c => isspace c = false) s.

(** The diagnostic of line 84. *)
Definition parse_error_message : str :=
  lit "Something went wrong parsing data. Probably wrong SNMP OID for this device.".

(** The status words that [check_asa_sessions] can print, with their exit
    codes: the reporter [unknown] is called nowhere. *)
Definition used_reporters : list (str * Z) :=
  [ (lit "OK:", 0); (lit "WARNING:", 1); (lit "CRITICAL:", 2);
    (lit "ERROR:", 3) ].

(** Whenever [m] leaves through [sys.exit], the last thing printed is a
    status line whose word and the exit code are paired in [S]. *)
Definition last_word (S : list (str * Z)) {A} (m : py A) : Prop :=
  forall st,
    match m st with
    | (SystemExit c, st') =>
      exists (pre : list output) (word msg : str),
        stdout st' = pre ++ [PrintCall [word; msg]] /\ In (word, c) S
    | _ => True
    end.

(** A word: not empty and without whitespace. *)
Definition word (t : str) : Prop := t <> [] /\ no_space t.

(** A text between double quotes. *)
Definition quoted (t : str) : str := [dquote] ++ t ++ [dquote].

(** What snmpwalk prints for one variable, [OID = TYPE: value] and a line
    feed, followed by [rest]. *)
Definition answer_text (oid type value rest : str) : str :=
  oid ++ lit " = " ++ type ++ lit " " ++ value ++ newline ++ rest.

(* ===================================================================== *)
(** ** Lemmas on the monad and on [evaluate] *)
(* ===================================================================== *)

Lemma report_run {A} (l : level) (msg : str) (st : state) :
  @report A l msg st = (SystemExit (exit_code l), printed st l msg).
Proof. destruct l; reflexivity. Qed.

Lemma bind_ret {A B} (a : A) (k : A -> py B) (st : state) :
  bind (ret a) k st = k a st.
Proof. reflexivity. Qed.

Lemma bind_getitem {B} (key : str) (v : value) (k : value -> py B)
    (st : state) :
  dict st !! key = Some v -> bind (getitem key) k st = k v st.
Proof. intros H. unfold bind, getitem. rewrite H. reflexivity. Qed.

Lemma bind_getitem_missing {B} (key : str) (k : value -> py B) (st : state) :
  dict st !! key = None ->
  bind (getitem key) k st = (Raised (KeyError key), st).
Proof. intros H. unfold bind, getitem. rewrite H. reflexivity. Qed.

Lemma bind_int {B} (s : str) (n : Z) (k : Z -> py B) (st : state) :
  py_int s = Some n -> bind (int s) k st = k n st.
Proof. intros H. unfold bind, int. rewrite H. reflexivity. Qed.

Lemma bind_lift_Some {A B} (e : exn) (a : A) (k : A -> py B) (st : state) :
  bind (lift e (Some a)) k st = k a st.
Proof. reflexivity. Qed.

Lemma bind_lift_None {A B} (e : exn) (k : A -> py B) (st : state) :
  bind (lift e None) k st = (Raised e, st).
Proof. reflexivity. Qed.

Lemma bind_if {A B} (c : bool) (m1 m2 : py A) (k : A -> py B) (st : state) :
  bind (if c then m1 else m2) k st
  = if c then bind m1 k st else bind m2 k st.
Proof. destruct c; reflexivity. Qed.

Lemma bind_assoc {A B C} (m : py A) (f : A -> py B) (g : B -> py C)
    (st : state) :
  bind (bind m f) g st = bind m (fun a => bind (f a) g) st.
Proof. unfold bind. destruct (m st) as [[a|e|c] st']; reflexivity. Qed.

Lemma bind_report {A B} (l : level) (msg : str) (k : A -> py B) (st : state) :
  bind (report l msg) k st = (SystemExit (exit_code l), printed st l msg).
Proof. unfold bind. rewrite report_run. reflexivity. Qed.

Section Evaluate.

Variables (st : state) (tok msg : str) (n cl wl wh ch : Z).
Hypothesis Hn : py_int tok = Some n.
Hypothesis Hcl : dict st !! lit "critical_low" = Some (VInt cl).
Hypothesis Hwl : dict st !! lit "warning_low" = Some (VInt wl).
Hypothesis Hwh : dict st !! lit "warning_high" = Some (VInt wh).
Hypothesis Hch : dict st !! lit "critical_high" = Some (VInt ch).

(** With integer thresholds the five guarded statements of [evaluate]
    run the reporter of the first band that holds, and fall through
    when none does. *)
Lemma evaluate_first_match :
  evaluate tok msg st =
  match first_match (bands n cl wl wh ch) with
  | Some l => report l msg st
  | None => (Normal tt, st)
  end.
Proof.
  unfold evaluate, int_le, int_lt, int_ge, lt_int, le_int.
  repeat first
    [ rewrite (bind_int _ _ _ _ Hn)
    | rewrite (bind_getitem _ _ _ _ Hcl)
    | rewrite (bind_getitem _ _ _ _ Hwl)
    | rewrite (bind_getitem _ _ _ _ Hwh)
    | rewrite (bind_getitem _ _ _ _ Hch)
    | rewrite bind_assoc
    | rewrite bind_if
    | rewrite bind_ret
    | progress cbn [as_number]
    | rewrite bind_lift_Some ].
  change (@critical unit msg) with (@report unit CRITICAL msg).
  change (@warning unit msg) with (@report unit WARNING msg).
  change (@ok unit msg) with (@report unit OK msg).
  rewrite !bind_report.
  cbv [first_match bands]. cbn [List.find fst snd fmap option_fmap option_map].
  destruct (n <=? cl), (cl <? n), (n <=? wl), (wl <? n), (n <? wh),
    (wh <=? n), (n <? ch), (n >=? ch); cbn [andb];
    rewrite ?report_run; reflexivity.
Qed.

(** Some band always holds, whatever the order of the thresholds. *)
Lemma some_band_holds : is_Some (first_match (bands n cl wl wh ch)).
Proof.
  cbv [first_match bands]. cbn [List.find fst snd].
  destruct (Z.leb_spec n cl); [eexists; reflexivity|].
  destruct (Z.ltb_spec cl n); [|lia].
  destruct (Z.leb_spec n wl); [eexists; reflexivity|].
  destruct (Z.ltb_spec wl n); [|lia].
  destruct (Z.ltb_spec n wh); [eexists; reflexivity|].
  destruct (Z.leb_spec wh n); [|lia].
  destruct (Z.ltb_spec n ch); [eexists; reflexivity|].
  cbn [andb].
  destruct (n >=? ch) eqn:E; [eexists; reflexivity|].
  rewrite Z.geb_leb in E. apply Z.leb_gt in E. lia.
Qed.

End Evaluate.

(* ===================================================================== *)
(** ** Classification: claims C4, C10 and C6 *)
(* ===================================================================== *)

(** C4. For every session count and every integer threshold
    configuration, mis-ordered ones included, [evaluate] ends with the
    verdict of the first band, in the listed order 1 to 5, whose condition
    holds: it prints that band's status line and exits with its code, so
    no later band can change the verdict. *)
Theorem C4_first_matching_band_governs
    (st : state) (tok msg : str) (n cl wl wh ch : Z) :
  py_int tok = Some n ->
  dict st !! lit "critical_low" = Some (VInt cl) ->
  dict st !! lit "warning_low" = Some (VInt wl) ->
  dict st !! lit "warning_high" = Some (VInt wh) ->
  dict st !! lit "critical_high" = Some (VInt ch) ->
  exists l : level,
    first_match (bands n cl wl wh ch) = Some l
    /\ evaluate tok msg st = (SystemExit (exit_code l), printed st l msg).
Proof.
  intros Hn Hcl Hwl Hwh Hch.
  destruct (some_band_holds n cl wl wh ch) as [l Hl].
  exists l. split; [exact Hl|].
  rewrite (evaluate_first_match st tok msg n cl wl wh ch Hn Hcl Hwl Hwh Hch).
  rewrite Hl. apply report_run.
Qed.

(** Overlapping bands: with thresholds -2, 7, 5, 3 (high ones below the
    low warning) the count 4 lies in bands 2 and 5; band 2 governs. *)
Lemma C4_witness :
  let st := State (<[lit "critical_high" := VInt 3]>
                   (<[lit "warning_high" := VInt 5]>
                    (<[lit "warning_low" := VInt 7]>
                     (snmp_check_values sample_args)))) [] in
  List.map fst (bands 4 (-2) 7 5 3) = [false; true; false; false; true]
  /\ exists l : level,
       first_match (bands 4 (-2) 7 5 3) = Some l
       /\ evaluate (lit "4") (lit "m") st
          = (SystemExit (exit_code l), printed st l (lit "m")).
Proof.
  intros st. split; [reflexivity|].
  apply (C4_first_matching_band_governs st (lit "4") (lit "m") 4 (-2) 7 5 3);
    vm_compute; reflexivity.
Defined.

(** C10. For every integer session count and every integer threshold
    configuration, whatever the order of the four thresholds, at least one
    of the five bands holds, and [evaluate] never falls through: it prints
    exactly one status line and exits. *)
Theorem C10_some_band_always_matches
    (st : state) (tok msg : str) (n cl wl wh ch : Z) :
  py_int tok = Some n ->
  dict st !! lit "critical_low" = Some (VInt cl) ->
  dict st !! lit "warning_low" = Some (VInt wl) ->
  dict st !! lit "warning_high" = Some (VInt wh) ->
  dict st !! lit "critical_high" = Some (VInt ch) ->
  List.existsb fst (bands n cl wl wh ch) = true
  /\ exists (l : level) (code : Z),
       evaluate tok msg st
       = (SystemExit code, State (dict st)
                                 (stdout st ++ [PrintCall [label l; msg]])).
Proof.
  intros Hn Hcl Hwl Hwh Hch.
  destruct (some_band_holds n cl wl wh ch) as [l Hl]. split.
  - unfold first_match in Hl.
    destruct (List.find fst (bands n cl wl wh ch)) as [[b l']|] eqn:E;
      [|discriminate].
    apply List.existsb_exists. exists (b, l').
    apply List.find_some in E. exact E.
  - exists l, (exit_code l).
    rewrite (evaluate_first_match st tok msg n cl wl wh ch Hn Hcl Hwl Hwh Hch).
    rewrite Hl. apply report_run.
Qed.

(** Thresholds in reverse order: 9, 6, 3, 0 and the count 5. *)
Lemma C10_witness :
  let st := State (<[lit "critical_high" := VInt 0]>
                   (<[lit "warning_high" := VInt 3]>
                    (<[lit "warning_low" := VInt 6]>
                     (<[lit "critical_low" := VInt 9]>
                      (snmp_check_values sample_args))))) [] in
  List.existsb fst (bands 5 9 6 3 0) = true
  /\ exists (l : level) (code : Z),
       evaluate (lit "5") (lit "m") st
       = (SystemExit code, State (dict st)
                                 (stdout st ++ [PrintCall [label l; lit "m"]])).
Proof.
  intros st.
  apply (C10_some_band_always_matches st (lit "5") (lit "m") 5 9 6 3 0);
    vm_compute; reflexivity.
Defined.

(** C6. With critical_low < warning_low < warning_high < critical_high
    the boundaries classify as follows: a count equal to critical_low is
    CRITICAL, equal to warning_low is WARNING, equal to warning_high is
    WARNING, equal to critical_high is CRITICAL, and every count strictly
    between warning_low and warning_high is OK. *)
Theorem C6_boundary_values
    (st : state) (tok msg : str) (n cl wl wh ch : Z) :
  py_int tok = Some n ->
  dict st !! lit "critical_low" = Some (VInt cl) ->
  dict st !! lit "warning_low" = Some (VInt wl) ->
  dict st !! lit "warning_high" = Some (VInt wh) ->
  dict st !! lit "critical_high" = Some (VInt ch) ->
  cl < wl < wh /\ wh < ch ->
  (n = cl -> evaluate tok msg st = (SystemExit 2, printed st CRITICAL msg))
  /\ (n = wl -> evaluate tok msg st = (SystemExit 1, printed st WARNING msg))
  /\ (n = wh -> evaluate tok msg st = (SystemExit 1, printed st WARNING msg))
  /\ (n = ch -> evaluate tok msg st = (SystemExit 2, printed st CRITICAL msg))
  /\ (wl < n < wh -> evaluate tok msg st = (SystemExit 0, printed st OK msg)).
Proof.
  intros Hn Hcl Hwl Hwh Hch Hord.
  rewrite (evaluate_first_match st tok msg n cl wl wh ch Hn Hcl Hwl Hwh Hch).
  cbv [first_match bands]. cbn [List.find fst snd].
  repeat split; intros H;
    destruct (Z.leb_spec n cl), (Z.ltb_spec cl n), (Z.leb_spec n wl),
      (Z.ltb_spec wl n), (Z.ltb_spec n wh), (Z.leb_spec wh n),
      (Z.ltb_spec n ch); cbn [andb fmap option_fmap option_map snd];
    try lia; try apply report_run;
    destruct (n >=? ch) eqn:E; cbn [fmap option_fmap option_map snd];
    try apply report_run;
    rewrite Z.geb_leb in E; apply Z.leb_gt in E; lia.
Qed.

(** The defaults of [main] (-2, -1, 50000, 100000) and the count 0. *)
Lemma C6_witness :
  let st := initial sample_args in
  (-2 < -1 < 50000 /\ 50000 < 100000)
  /\ evaluate (lit "0") (lit "m") st = (SystemExit 0, printed st OK (lit "m")).
Proof.
  intros st. split; [lia|].
  apply (C6_boundary_values st (lit "0") (lit "m") 0 (-2) (-1) 50000 100000);
    try (vm_compute; reflexivity); lia.
Defined.

(* ===================================================================== *)
(** ** The automatic 'critical high': claims C5 and C1 *)
(* ===================================================================== *)

(** With the flag set, lines 90 to 94 do nothing. *)
Lemma resolve_critical_high_explicit (st : state) (asa_model : str) :
  dict st !! lit "high_threshold_set" = Some (VBool true) ->
  resolve_critical_high asa_model st = (Normal tt, st).
Proof.
  intros H. unfold resolve_critical_high.
  rewrite (bind_getitem _ _ _ _ H). reflexivity.
Qed.

(** With the flag clear and a model that has a truthy entry, lines 90 to
    94 overwrite 'critical_high' with that entry. *)
Lemma resolve_critical_high_known (st : state) (asa_model : str) (v : value) :
  dict st !! lit "high_threshold_set" = Some (VBool false) ->
  dict st !! asa_model = Some v ->
  truthy v = true ->
  resolve_critical_high asa_model st
  = (Normal tt, State (<[lit "critical_high" := v]> (dict st)) (stdout st)).
Proof.
  intros Hf Hm Ht. unfold resolve_critical_high.
  rewrite (bind_getitem _ _ _ _ Hf). cbn [eq_bool Bool.eqb].
  rewrite (bind_getitem _ _ _ _ Hm), Ht.
  rewrite (bind_getitem _ _ _ _ Hm). reflexivity.
Qed.

(** With the flag clear and a model that is no key of the dictionary,
    the subscription on line 91 raises [KeyError]: the fallback on line 94
    is not reached. *)
Lemma resolve_critical_high_absent (st : state) (asa_model : str) :
  dict st !! lit "high_threshold_set" = Some (VBool false) ->
  dict st !! asa_model = None ->
  resolve_critical_high asa_model st = (Raised (KeyError asa_model), st).
Proof.
  intros Hf Hm. unfold resolve_critical_high.
  rewrite (bind_getitem _ _ _ _ Hf). cbn [eq_bool Bool.eqb].
  apply bind_getitem_missing. exact Hm.
Qed.

(** C5. When high_threshold_set is true, the threshold resolution leaves
    the dictionary as it is, whatever the model, so that the
    classification that follows reads the operator's critical_high: it
    runs as if the resolution were not there. *)
Theorem C5_explicit_critical_high_wins
    (st : state) (asa_model tok msg : str) (ch : value) :
  dict st !! lit "high_threshold_set" = Some (VBool true) ->
  dict st !! lit "critical_high" = Some ch ->
  resolve_critical_high asa_model st = (Normal tt, st)
  /\ dict (snd (resolve_critical_high asa_model st)) !! lit "critical_high"
     = Some ch
  /\ bind (resolve_critical_high asa_model) (fun _ => evaluate tok msg) st
     = evaluate tok msg st.
Proof.
  intros Hf Hch.
  pose proof (resolve_critical_high_explicit st asa_model Hf) as E.
  repeat split.
  - exact E.
  - rewrite E. exact Hch.
  - unfold bind at 1. rewrite E. reflexivity.
Qed.

(** The operator gives 1000 and the device is an ASA5550, whose entry in
    the table is 650000: 1000 stays 'critical_high'. *)
Lemma C5_witness :
  let st := initial args_critical_1000 in
  dict st !! lit "ASA5550" = Some (VInt 650000)
  /\ resolve_critical_high (lit "ASA5550") st = (Normal tt, st)
  /\ dict (snd (resolve_critical_high (lit "ASA5550") st))
       !! lit "critical_high" = Some (VInt 1000)
  /\ bind (resolve_critical_high (lit "ASA5550"))
          (fun _ => evaluate (lit "1000") (lit "m")) st
     = evaluate (lit "1000") (lit "m") st.
Proof.
  intros st. split; [vm_compute; reflexivity|].
  apply (C5_explicit_critical_high_wins st (lit "ASA5550") (lit "1000")
           (lit "m") (VInt 1000)); vm_compute; reflexivity.
Defined.

(** C1, at the failing input: defaults on the command line and a device
    that reports the model ASA5585, which is not in the table.  The run
    ends with an uncaught [KeyError] (exit status 1 and a traceback), no
    status line, and 'critical_high' still at its initial 100000: the
    fallback 800000 is never taken. *)
Theorem C1_unknown_model_raises_KeyError :
  main sample_args (device "1234" "ASA5585")
  = (Raised (KeyError (lit "ASA5585")), initial sample_args)
  /\ exit_status (fst (main sample_args (device "1234" "ASA5585"))) = 1
  /\ snmp_check_values sample_args !! lit "ASA5585" = None
  /\ snmp_check_values sample_args !! lit "high_threshold_set"
     = Some (VBool false).
Proof. vm_compute. repeat split; reflexivity. Qed.

(* ===================================================================== *)
(** ** The command line: claim C2 *)
(* ===================================================================== *)

(** Two different literal keys. *)
Ltac key_ne := let E := fresh in intros E; vm_compute in E; discriminate E.

(** Look a literal key up behind the overrides of [snmp_check_values]. *)
Ltac lookup_overrides :=
  repeat match goal with
         | |- context [if ?c then _ else _] => destruct c
         end;
  repeat first [ rewrite lookup_insert_eq
               | rewrite lookup_insert_ne by key_ne ];
  try (vm_compute; reflexivity).

(** A value other than 0 given with [-c] becomes 'critical_high' and sets
    the flag. *)
Lemma snmp_check_values_critical (args : Namespace) (c : Z) :
  args_critical args = Some c ->
  c <> 0 ->
  snmp_check_values args !! lit "critical_high" = Some (VInt c)
  /\ snmp_check_values args !! lit "high_threshold_set" = Some (VBool true).
Proof.
  intros H Hc. unfold snmp_check_values. rewrite H.
  assert (T : arg_truthy (Some c) = true).
  { cbn [arg_truthy truthy]. destruct (Z.eqb_spec c 0); [contradiction|reflexivity]. }
  rewrite T. cbn [arg_value default].
  split; destruct (args_debug args);
    repeat first [ rewrite lookup_insert_eq
                 | rewrite lookup_insert_ne by key_ne ]; reflexivity.
Qed.

(** C2, at the failing input: with [-c 0] the test [if args.critical:] on
    line 175 is false, so 'critical_high' keeps its initial 100000 and
    'high_threshold_set' stays False, whatever the other arguments are.
    The operator's 0 is dropped and the model table decides later. *)
Theorem C2_critical_zero_is_dropped (args : Namespace) :
  args_critical args = Some 0 ->
  snmp_check_values args !! lit "critical_high" = Some (VInt 100000)
  /\ snmp_check_values args !! lit "high_threshold_set" = Some (VBool false).
Proof.
  intros H. unfold snmp_check_values. rewrite H.
  cbn [arg_truthy truthy Z.eqb negb].
  split; lookup_overrides.
Qed.

(** With [-c 0] and an ASA5505 the dictionary keeps 100000 and the flag
    stays False; a count of 5 is reported OK. *)
Lemma C2_witness :
  args_critical args_critical_0 = Some 0
  /\ (snmp_check_values args_critical_0 !! lit "critical_high"
      = Some (VInt 100000)
      /\ snmp_check_values args_critical_0 !! lit "high_threshold_set"
         = Some (VBool false))
  /\ fst (main args_critical_0 (device "5" "ASA5505")) = SystemExit 0.
Proof.
  split; [reflexivity|]. split.
  - apply (C2_critical_zero_is_dropped args_critical_0). reflexivity.
  - vm_compute. reflexivity.
Defined.

(* ===================================================================== *)
(** ** A value that is no number: claim C3 *)
(* ===================================================================== *)

(** C3, at the failing input: the fourth field of the session answer is
    the word 'Such'.  The [try] block of lines 76 to 85 only splits, so it
    succeeds; [int('Such')] on line 116 is outside of it and raises
    [ValueError], which nobody catches: exit status 1, a traceback, and no
    ERROR line with the hint about the OID. *)
Theorem C3_non_numeric_count_raises_ValueError :
  fst (parse no_such_object (model_answer "ASA5510") (initial sample_args))
  = Normal (lit "Such", lit "ASA5510")
  /\ py_int (lit "Such") = None
  /\ fst (main sample_args device_without_counter) = Raised ValueError
  /\ stdout (snd (main sample_args device_without_counter)) = []
  /\ exit_status (fst (main sample_args device_without_counter)) = 1.
Proof. vm_compute. repeat split; reflexivity. Qed.

(* ===================================================================== *)
(** ** What a run does to the dictionary *)
(* ===================================================================== *)

Section Frame.

(** [R d d'] relates the dictionary before to the dictionary after;
    [P] is a condition on the dictionary that [R] carries along. *)
Variable P : gmap str value -> Prop.
Variable R : gmap str value -> gmap str value -> Prop.
Hypothesis R_refl : forall d, R d d.
Hypothesis R_trans : forall a b c, R a b -> R b c -> R a c.
Hypothesis P_R : forall d d', P d -> R d d' -> P d'.

Local Abbreviation keeps := (keeps P R).

Lemma keeps_ret {A} (a : A) : keeps (ret a).
Proof. intros st _. apply R_refl. Qed.

Lemma keeps_raise {A} (e : exn) : keeps (@raise A e).
Proof. intros st _. apply R_refl. Qed.

Lemma keeps_sys_exit {A} (c : Z) : keeps (@sys_exit A c).
Proof. intros st _. apply R_refl. Qed.

Lemma keeps_lift {A} (e : exn) (o : option A) : keeps (lift e o).
Proof. destruct o; [apply keeps_ret|apply keeps_raise]. Qed.

Lemma keeps_getitem (k : str) : keeps (getitem k).
Proof.
  intros st _. unfold getitem. destruct (dict st !! k); apply R_refl.
Qed.

Lemma keeps_emit (o : output) : keeps (emit o).
Proof. intros st _. apply R_refl. Qed.

Lemma keeps_bind {A B} (m : py A) (k : A -> py B) :
  keeps m -> (forall a, keeps (k a)) -> keeps (bind m k).
Proof.
  intros Hm Hk st HP. unfold bind.
  pose proof (Hm st HP) as H1.
  destruct (m st) as [[a|e|c] st']; cbn [snd] in *; try exact H1.
  eapply R_trans; [exact H1|]. apply Hk. eapply P_R; eassumption.
Qed.

Lemma keeps_try_except {A} (body handler : py A) :
  keeps body -> keeps handler -> keeps (try_except body handler).
Proof.
  intros Hb Hh st HP. unfold try_except.
  pose proof (Hb st HP) as H1.
  destruct (body st) as [[a|e|c] st']; cbn [snd] in *; try exact H1;
    (eapply R_trans; [exact H1|]; apply Hh; eapply P_R; eassumption).
Qed.

Lemma keeps_if {A} (c : bool) (m1 m2 : py A) :
  keeps m1 -> keeps m2 -> keeps (if c then m1 else m2).
Proof. destruct c; trivial. Qed.

Ltac keeps_step :=
  first [ apply keeps_ret | apply keeps_raise | apply keeps_sys_exit
        | apply keeps_lift | apply keeps_getitem | apply keeps_emit
        | apply keeps_if
        | apply keeps_try_except
        | apply keeps_bind; [|intro] ].

Lemma keeps_reporters {A} (msg : str) :
  keeps (@ok A msg) /\ keeps (@warning A msg) /\ keeps (@critical A msg)
  /\ keeps (@unknown A msg) /\ keeps (@error A msg).
Proof.
  unfold ok, warning, critical, unknown, error, print2.
  repeat split; repeat keeps_step.
Qed.

Lemma keeps_poll (w : world) : keeps (poll w).
Proof.
  unfold poll, check_output, str_add.
  repeat keeps_step; apply keeps_reporters.
Qed.

Lemma keeps_parse (s m : bytes) : keeps (parse s m).
Proof.
  unfold parse, index. repeat keeps_step; apply keeps_reporters.
Qed.

Lemma keeps_debug_output (s : bytes) (t : str) (m : bytes) (a : str) :
  keeps (debug_output s t m a).
Proof.
  unfold debug_output. repeat keeps_step.
  intros st _. apply R_refl.
Qed.

Lemma keeps_evaluate (tok msg : str) : keeps (evaluate tok msg).
Proof.
  unfold evaluate, int, int_le, int_lt, int_ge, lt_int, le_int.
  repeat keeps_step; apply keeps_reporters.
Qed.

(** The whole check keeps what the threshold resolution keeps. *)
Lemma keeps_check_asa_sessions (w : world) :
  (forall asa_model, keeps (resolve_critical_high asa_model)) ->
  keeps (check_asa_sessions w).
Proof.
  intros Hres. unfold check_asa_sessions.
  apply keeps_bind; [apply keeps_poll|intro].
  apply keeps_bind; [apply keeps_parse|intro].
  apply keeps_bind; [apply Hres|intro].
  apply keeps_bind; [apply keeps_debug_output|intro].
  apply keeps_evaluate.
Qed.

End Frame.

Lemma resolve_critical_high_agree_off (asa_model : str) :
  keeps (fun _ => True) (agree_off (lit "critical_high"))
        (resolve_critical_high asa_model).
Proof.
  intros st _ k Hk. unfold resolve_critical_high, bind, getitem, setitem.
  destruct (dict st !! lit "high_threshold_set") as [f|]; [|reflexivity].
  destruct (eq_bool f false); [|reflexivity].
  destruct (dict st !! asa_model) as [v|] eqn:Em; [|reflexivity].
  destruct (truthy v).
  - rewrite Em. cbn [snd dict]. apply lookup_insert_ne. congruence.
  - destruct (dict st !! lit "UNKNOWN_MODEL"); [|reflexivity].
    cbn [snd dict]. apply lookup_insert_ne. congruence.
Qed.

Lemma resolve_critical_high_flag_set (asa_model : str) :
  keeps flag_set (fun d d' => d' = d) (resolve_critical_high asa_model).
Proof.
  intros st Hf. rewrite (resolve_critical_high_explicit st asa_model Hf).
  reflexivity.
Qed.

(* ===================================================================== *)
(** ** A poll that fails: claim C8 *)
(* ===================================================================== *)

(** The diagnostic names the host and the community string. *)
Lemma poll_error_message_contains (host community : str) :
  contains (poll_error_message host community) host
  /\ contains (poll_error_message host community) community.
Proof.
  unfold poll_error_message, contains. split.
  - exists (lit "Something went wrong with subprocess command 'snmpwalk'" ++ newline ++ lit "Is the host ").
    eexists. rewrite <- !app_assoc. reflexivity.
  - 
    exists (lit "Something went wrong with subprocess command 'snmpwalk'"
  ++ ((newline ++ lit "Is the host ") ++ host) ++ lit " reachable?"
  ++ newline ++ lit "Is it configured to accept SNMP polls from this host?"
  ++ newline ++ lit "Is SNMP community string '"), (lit "' valid?").
    rewrite <- !app_assoc. reflexivity.
Qed.

Lemma poll_failure (w : world) (st : state) (community host : str) :
  dict st !! lit "snmp_community" = Some (VStr community) ->
  dict st !! lit "snmp_host" = Some (VStr host) ->
  dict st !! lit "snmp_oid_asa_sessions" = Some (VStr snmp_oid_asa_sessions) ->
  dict st !! lit "snmp_oid_asa_model" = Some (VStr snmp_oid_asa_model) ->
  w 0%nat (snmpwalk_argv community host snmp_oid_asa_sessions) = None
  \/ w 1%nat (snmpwalk_argv community host snmp_oid_asa_model) = None ->
  poll w st
  = (SystemExit 3,
     State (dict st)
           (stdout st
            ++ [PrintCall [lit "ERROR:"; poll_error_message host community]])).
Proof.
  intros Hc Hh Hs Hm Hw.
  assert (Hhandler :
    (host <- getitem (lit "snmp_host") ;;
     line <- str_add (newline ++ lit "Is the host ") host ;;
     let msg := lit "Something went wrong with subprocess command 'snmpwalk'" ++ (line ++ lit " reachable?") in
     let msg := msg ++ (newline
                        ++ lit "Is it configured to accept SNMP polls from this host?") in
     community <- getitem (lit "snmp_community") ;;
     line <- str_add (newline ++ lit "Is SNMP community string '") community ;;
     let msg := msg ++ (line ++ lit "' valid?") in
     @error (bytes * bytes) msg) st
    = (SystemExit 3,
     State (dict st)
           (stdout st
            ++ [PrintCall [lit "ERROR:"; poll_error_message host community]]))).
  { rewrite (bind_getitem _ _ _ _ Hh). unfold str_add. cbn [as_str].
    rewrite bind_assoc, bind_lift_Some, bind_ret.
    cbv zeta. rewrite (bind_getitem _ _ _ _ Hc). cbn [as_str].
    rewrite bind_assoc, bind_lift_Some, bind_ret.
    unfold poll_error_message. rewrite <- !app_assoc. reflexivity. }
  unfold poll, try_except.
  rewrite (bind_getitem _ _ _ _ Hc), (bind_getitem _ _ _ _ Hh),
    (bind_getitem _ _ _ _ Hs).
  unfold check_output at 1. cbn [mapM as_str mbind option_bind mret option_ret].
  rewrite bind_assoc, bind_lift_Some.
  fold (snmpwalk_argv community host snmp_oid_asa_sessions).
  destruct (w 0%nat (snmpwalk_argv community host snmp_oid_asa_sessions)) as [out|] eqn:E0.
  - rewrite bind_lift_Some.
    rewrite (bind_getitem _ _ _ _ Hc), (bind_getitem _ _ _ _ Hh),
      (bind_getitem _ _ _ _ Hm).
    unfold check_output. cbn [mapM as_str mbind option_bind mret option_ret].
    rewrite bind_assoc, bind_lift_Some.
    fold (snmpwalk_argv community host snmp_oid_asa_model).
    destruct Hw as [Hw|Hw]; [discriminate|]. rewrite Hw.
    rewrite bind_lift_None. exact Hhandler.
  - rewrite bind_lift_None. exact Hhandler.
Qed.

(** C8. Whenever one of the two calls of snmpwalk fails, the run ends at
    once with exit code 3; all it prints is one ERROR line whose message
    contains the host and the community string, so no OK, WARNING or
    CRITICAL line is produced. *)
Theorem C8_poll_failure_is_fatal (args : Namespace) (w : world) :
  w 0%nat (snmpwalk_argv (args_SNMP_COMMUNITY args) (args_HOST args)
                         snmp_oid_asa_sessions) = None
  \/ w 1%nat (snmpwalk_argv (args_SNMP_COMMUNITY args) (args_HOST args)
                            snmp_oid_asa_model) = None ->
  let msg := poll_error_message (args_HOST args) (args_SNMP_COMMUNITY args) in
  main args w
  = (SystemExit 3,
     State (snmp_check_values args) [PrintCall [lit "ERROR:"; msg]])
  /\ exit_status (fst (main args w)) = 3
  /\ contains msg (args_HOST args)
  /\ contains msg (args_SNMP_COMMUNITY args).
Proof.
  intros Hw msg.
  assert (E : main args w
              = (SystemExit 3,
                 State (snmp_check_values args) [PrintCall [lit "ERROR:"; msg]])).
  { unfold main, check_asa_sessions. unfold bind at 1.
    rewrite (poll_failure w _ (args_SNMP_COMMUNITY args) (args_HOST args));
      [reflexivity| | | | |exact Hw];
      cbn [dict]; unfold snmp_check_values; lookup_overrides. }
  split; [exact E|]. split; [rewrite E; reflexivity|].
  apply poll_error_message_contains.
Qed.

(** An unreachable host and the defaults. *)
Lemma C8_witness :
  unreachable 0%nat (snmpwalk_argv (lit "public") (lit "10.0.0.1")
                                   snmp_oid_asa_sessions) = None
  /\ exit_status (fst (main sample_args unreachable)) = 3.
Proof.
  split; [reflexivity|].
  apply (C8_poll_failure_is_fatal sample_args unreachable).
  left. reflexivity.
Defined.

(* ===================================================================== *)
(** ** Status lines and exit codes: claim C7 *)
(* ===================================================================== *)

Lemma quiet_verdict_ok {A} (m : py A) : quiet m -> verdict_ok m.
Proof.
  intros H st Hc. destruct (H st Hc) as [H1 H2]. unfold one_verdict.
  destruct (fst (m st)) eqn:E; try exact H1. exfalso. eapply H2. reflexivity.
Qed.

Lemma quiet_ret {A} (a : A) : quiet (ret a).
Proof. intros st H. split; [exact H|discriminate]. Qed.

Lemma quiet_raise {A} (e : exn) : quiet (@raise A e).
Proof. intros st H. split; [exact H|discriminate]. Qed.

Lemma quiet_lift {A} (e : exn) (o : option A) : quiet (lift e o).
Proof. destruct o; [apply quiet_ret|apply quiet_raise]. Qed.

Lemma quiet_getitem (k : str) : quiet (getitem k).
Proof.
  intros st H. unfold getitem.
  destruct (dict st !! k); (split; [exact H|discriminate]).
Qed.

Lemma quiet_setitem (k : str) (v : value) : quiet (setitem k v).
Proof. intros st H. split; [exact H|discriminate]. Qed.

Lemma quiet_bind {A B} (m : py A) (k : A -> py B) :
  quiet m -> (forall a, quiet (k a)) -> quiet (bind m k).
Proof.
  intros Hm Hk st Hc. unfold bind. destruct (Hm st Hc) as [H1 H2].
  destruct (m st) as [[a|e|c] st']; cbn [fst snd] in *.
  - apply Hk, H1.
  - split; [exact H1|discriminate].
  - exfalso. eapply H2. reflexivity.
Qed.

Lemma quiet_if {A} (c : bool) (m1 m2 : py A) :
  quiet m1 -> quiet m2 -> quiet (if c then m1 else m2).
Proof. destruct c; trivial. Qed.

Lemma verdict_ok_bind {A B} (m : py A) (k : A -> py B) :
  verdict_ok m -> (forall a, verdict_ok (k a)) -> verdict_ok (bind m k).
Proof.
  intros Hm Hk st Hc. unfold bind. pose proof (Hm st Hc) as H1.
  unfold one_verdict in *.
  destruct (m st) as [[a|e|c] st']; cbn [fst snd] in *.
  - apply Hk, H1.
  - exact H1.
  - exact H1.
Qed.

Lemma verdict_ok_try_except {A} (body handler : py A) :
  quiet body -> verdict_ok handler -> verdict_ok (try_except body handler).
Proof.
  intros Hb Hh st Hc. unfold try_except. destruct (Hb st Hc) as [H1 H2].
  destruct (body st) as [[a|e|c] st']; cbn [fst snd] in *.
  - exact H1.
  - apply Hh, H1.
  - apply Hh, H1.
Qed.

Lemma verdict_ok_if {A} (c : bool) (m1 m2 : py A) :
  verdict_ok m1 -> verdict_ok m2 -> verdict_ok (if c then m1 else m2).
Proof. destruct c; trivial. Qed.

Lemma clean_app (a b : list output) : clean a -> clean b -> clean (a ++ b).
Proof.
  unfold clean. intros Ha Hb. rewrite List.forallb_app, Ha, Hb. reflexivity.
Qed.

Lemma verdict_ok_status {A} (word msg : str) (code : Z) :
  In (word, code) reporters ->
  verdict_ok (print2 word msg ;;; @sys_exit A code).
Proof.
  intros Hin st Hc. unfold one_verdict. cbn.
  exists (stdout st), word, msg. auto.
Qed.

Lemma verdict_ok_reporters {A} (msg : str) :
  verdict_ok (@ok A msg) /\ verdict_ok (@warning A msg)
  /\ verdict_ok (@critical A msg) /\ verdict_ok (@unknown A msg)
  /\ verdict_ok (@error A msg).
Proof.
  repeat split; apply verdict_ok_status; cbn; auto 10.
Qed.

Ltac quiet_step :=
  first [ apply quiet_ret | apply quiet_raise | apply quiet_lift
        | apply quiet_getitem | apply quiet_setitem | apply quiet_if
        | apply quiet_bind; [|intro] ].

Ltac verdict_step :=
  first [ apply verdict_ok_reporters
        | apply verdict_ok_if
        | apply verdict_ok_bind; [|intro]
        | apply quiet_verdict_ok; quiet_step ].

Lemma quiet_debug_output (s : bytes) (t : str) (m : bytes) (a : str) :
  quiet (debug_output s t m a).
Proof.
  unfold debug_output. repeat quiet_step.
  intros st H. cbn. split; [|discriminate].
  apply clean_app; [exact H|reflexivity].
Qed.

Lemma verdict_ok_check_asa_sessions (w : world) :
  verdict_ok (check_asa_sessions w).
Proof.
  unfold check_asa_sessions.
  apply verdict_ok_bind; [|intro].
  { unfold poll. apply verdict_ok_try_except.
    - unfold check_output. repeat quiet_step.
    - unfold str_add. repeat verdict_step; repeat quiet_step. }
  apply verdict_ok_bind; [|intro].
  { unfold parse. apply verdict_ok_try_except.
    - unfold index. repeat quiet_step.
    - apply verdict_ok_reporters. }
  apply verdict_ok_bind; [|intro].
  { apply quiet_verdict_ok. unfold resolve_critical_high. repeat quiet_step. }
  apply verdict_ok_bind; [|intro].
  { apply quiet_verdict_ok, quiet_debug_output. }
  unfold evaluate, int, int_le, int_lt, int_ge, lt_int, le_int.
  repeat verdict_step; repeat quiet_step.
Qed.

Lemma exits_with_quiet_free {A} (code : Z) (m : py A) :
  (forall st c, fst (m st) <> SystemExit c) -> exits_with code m.
Proof.
  intros H st. specialize (H st). destruct (fst (m st)); try exact I.
  exfalso. eapply H. reflexivity.
Qed.

Lemma exits_with_getitem (code : Z) (k : str) : exits_with code (getitem k).
Proof.
  apply exits_with_quiet_free. intros st c. unfold getitem.
  destruct (dict st !! k); discriminate.
Qed.

Lemma exits_with_lift {A} (code : Z) (e : exn) (o : option A) :
  exits_with code (lift e o).
Proof. apply exits_with_quiet_free. intros st c. destruct o; discriminate. Qed.

Lemma exits_with_ret {A} (code : Z) (a : A) : exits_with code (ret a).
Proof. intros st. exact I. Qed.

Lemma exits_with_bind {A B} (code : Z) (m : py A) (k : A -> py B) :
  exits_with code m -> (forall a, exits_with code (k a)) ->
  exits_with code (bind m k).
Proof.
  intros Hm Hk st. unfold bind. specialize (Hm st).
  destruct (m st) as [[a|e|c] st']; cbn [fst] in *; try exact Hm.
  apply Hk.
Qed.

Lemma exits_with_try_except {A} (code : Z) (body handler : py A) :
  exits_with code handler -> exits_with code (try_except body handler).
Proof.
  intros Hh st. unfold try_except.
  destruct (body st) as [[a|e|c] st']; [exact I|apply Hh|apply Hh].
Qed.

Lemma exits_with_error {A} (msg : str) : exits_with 3 (@error A msg).
Proof. intros st. reflexivity. Qed.

Lemma poll_exits_with_3 (w : world) : exits_with 3 (poll w).
Proof.
  unfold poll. apply exits_with_try_except. unfold str_add.
  repeat first [ apply exits_with_error | apply exits_with_getitem
               | apply exits_with_lift | apply exits_with_ret
               | apply exits_with_bind; [|intro] ].
Qed.

Lemma parse_exits_with_3 (s m : bytes) : exits_with 3 (parse s m).
Proof.
  unfold parse. apply exits_with_try_except, exits_with_error.
Qed.

(** What does hold of the exit codes: each reporter prints its word and
    exits with its code (0 for OK, 1 for WARNING, 2 for CRITICAL, 3 for
    UNKNOWN and for ERROR); every run of [main] that leaves through
    [sys.exit] has printed exactly one status line, as its last output,
    and leaves with the code of that line's word, while a run that ends
    otherwise has printed none; and both the handler of a failed poll and
    the handler of a failed parse leave with 3.  Nothing here speaks of a
    run that ends in an exception. *)
Lemma status_line_matches_exit_code :
  (forall (msg : str) (st : state),
      @ok unit msg st
      = (SystemExit 0, State (dict st) (stdout st ++ [PrintCall [lit "OK:"; msg]]))
      /\ @warning unit msg st
         = (SystemExit 1,
            State (dict st) (stdout st ++ [PrintCall [lit "WARNING:"; msg]]))
      /\ @critical unit msg st
         = (SystemExit 2,
            State (dict st) (stdout st ++ [PrintCall [lit "CRITICAL:"; msg]]))
      /\ @unknown unit msg st
         = (SystemExit 3,
            State (dict st) (stdout st ++ [PrintCall [lit "UNKNOWN:"; msg]]))
      /\ @error unit msg st
         = (SystemExit 3,
            State (dict st) (stdout st ++ [PrintCall [lit "ERROR:"; msg]])))
  /\ (forall (args : Namespace) (w : world), one_verdict (main args w))
  /\ (forall w : world, exits_with 3 (poll w))
  /\ (forall s m : bytes, exits_with 3 (parse s m)).
Proof.
  split; [intros msg st; repeat split|]. split.
  - intros args w. apply verdict_ok_check_asa_sessions. reflexivity.
  - split; [apply poll_exits_with_3|apply parse_exits_with_3].
Qed.

(** C7, at the failing inputs.  The answer to the session poll has the
    word 'Such' as its fourth field: the parsing block yields it, [int]
    refuses it on line 116, and the process ends with exit status 1, the
    code of WARNING, not with 3, and without any status line.  And with a
    model that is no key of the dictionary (ASA5585) the process ends
    with exit status 1 as well, again with nothing printed.  In both runs
    the exit code matches no severity that was reported. *)
Theorem C7_exit_code_without_verdict :
  let non_numeric := main sample_args device_without_counter in
  let unknown_model := main sample_args (device "1234" "ASA5585") in
  fst (parse no_such_object (model_answer "ASA5510") (initial sample_args))
  = Normal (lit "Such", lit "ASA5510")
  /\ fst non_numeric = Raised ValueError
  /\ exit_status (fst non_numeric) = exit_code WARNING
  /\ exit_status (fst non_numeric) <> exit_code UNKNOWN
  /\ stdout (snd non_numeric) = []
  /\ fst unknown_model = Raised (KeyError (lit "ASA5585"))
  /\ exit_status (fst unknown_model) = exit_code WARNING
  /\ stdout (snd unknown_model) = [].
Proof.
  vm_compute. repeat split; try reflexivity. discriminate.
Qed.

(* ===================================================================== *)
(** ** The dictionary that [main] builds *)
(* ===================================================================== *)

(** The overrides of lines 168 to 182 insert at six keys only. *)
Lemma snmp_check_values_lookup_other (args : Namespace) (k : str) :
  k <> lit "warning_low" -> k <> lit "critical_low" ->
  k <> lit "warning_high" -> k <> lit "critical_high" ->
  k <> lit "high_threshold_set" -> k <> lit "debug" ->
  snmp_check_values args !! k = required_values args !! k.
Proof.
  intros H1 H2 H3 H4 H5 H6. unfold snmp_check_values.
  repeat match goal with
         | |- context [if ?c then _ else _] => destruct c
         end;
  repeat rewrite lookup_insert_ne by congruence; reflexivity.
Qed.

(** What [main] leaves at the six keys that the options can replace. *)
Ltac lookup_option_key args :=
  destruct args as [c h w cr wl cl dbg]; unfold snmp_check_values;
  cbn [args_wl args_cl args_warning args_critical args_debug];
  unfold effective, arg_truthy, arg_value, truthy;
  destruct w as [w|], cr as [cr|], wl as [wl|], cl as [cl|], dbg;
  cbn [default negb];
  repeat match goal with
         | |- context [?z =? 0] => destruct (z =? 0)
         end; cbn [negb];
  repeat first [ rewrite lookup_insert_eq
               | rewrite lookup_insert_ne by key_ne ];
  reflexivity.

Lemma lookup_warning_low (args : Namespace) :
  snmp_check_values args !! lit "warning_low"
  = Some (VInt (effective (args_wl args) (-1))).
Proof. lookup_option_key args. Qed.

Lemma lookup_critical_low (args : Namespace) :
  snmp_check_values args !! lit "critical_low"
  = Some (VInt (effective (args_cl args) (-2))).
Proof. lookup_option_key args. Qed.

Lemma lookup_warning_high (args : Namespace) :
  snmp_check_values args !! lit "warning_high"
  = Some (VInt (effective (args_warning args) 50000)).
Proof. lookup_option_key args. Qed.

Lemma lookup_critical_high (args : Namespace) :
  snmp_check_values args !! lit "critical_high"
  = Some (VInt (effective (args_critical args) 100000)).
Proof. lookup_option_key args. Qed.

Lemma lookup_high_threshold_set (args : Namespace) :
  snmp_check_values args !! lit "high_threshold_set"
  = Some (VBool (arg_truthy (args_critical args))).
Proof. lookup_option_key args. Qed.

Lemma lookup_debug (args : Namespace) :
  snmp_check_values args !! lit "debug" = Some (VBool (args_debug args)).
Proof. lookup_option_key args. Qed.

(** What [main] leaves at a key of the literal that no option replaces. *)
Lemma lookup_literal (args : Namespace) (k : str) (v : value) :
  required_values args !! k = Some v ->
  k <> lit "warning_low" -> k <> lit "critical_low" ->
  k <> lit "warning_high" -> k <> lit "critical_high" ->
  k <> lit "high_threshold_set" -> k <> lit "debug" ->
  snmp_check_values args !! k = Some v.
Proof.
  intros E H1 H2 H3 H4 H5 H6.
  rewrite snmp_check_values_lookup_other by assumption. exact E.
Qed.

Lemma lookup_model_table (args : Namespace) (model : str) (ceiling : Z) :
  In (model, ceiling) model_table ->
  snmp_check_values args !! model = Some (VInt ceiling).
Proof.
  intros Hin. cbn [model_table In] in Hin.
  repeat (destruct Hin as [E|Hin];
          [injection E as <- <-; apply lookup_literal;
           [vm_compute; reflexivity|key_ne ..]|]).
  contradiction.
Qed.

Lemma lookup_snmp_community (args : Namespace) :
  snmp_check_values args !! lit "snmp_community"
  = Some (VStr (args_SNMP_COMMUNITY args)).
Proof. apply lookup_literal; [vm_compute; reflexivity|key_ne ..]. Qed.

Lemma lookup_snmp_host (args : Namespace) :
  snmp_check_values args !! lit "snmp_host" = Some (VStr (args_HOST args)).
Proof. apply lookup_literal; [vm_compute; reflexivity|key_ne ..]. Qed.

Lemma lookup_snmp_oid_asa_sessions (args : Namespace) :
  snmp_check_values args !! lit "snmp_oid_asa_sessions"
  = Some (VStr snmp_oid_asa_sessions).
Proof. apply lookup_literal; [vm_compute; reflexivity|key_ne ..]. Qed.

Lemma lookup_snmp_oid_asa_model (args : Namespace) :
  snmp_check_values args !! lit "snmp_oid_asa_model"
  = Some (VStr snmp_oid_asa_model).
Proof. apply lookup_literal; [vm_compute; reflexivity|key_ne ..]. Qed.

Lemma lookup_UNKNOWN_MODEL (args : Namespace) :
  snmp_check_values args !! lit "UNKNOWN_MODEL" = Some (VInt 800000).
Proof. apply lookup_literal; [vm_compute; reflexivity|key_ne ..]. Qed.

(** A key outside the literal is no key of the dictionary. *)
Lemma lookup_no_setting (args : Namespace) (k : str) :
  ~ In k setting_keys -> snmp_check_values args !! k = None.
Proof.
  intros Hn. cbn [setting_keys In] in Hn.
  rewrite snmp_check_values_lookup_other by (intros ->; tauto).
  unfold required_values.
  apply (not_elem_of_list_to_map_1 (M := gmap str)).
  cbn [fmap list_fmap fst]. intros Hel.
  apply list_elem_of_In in Hel. cbn [In] in Hel. tauto.
Qed.

(** X1. The thresholds and flags that [main] hands to [check_asa_sessions]:
    each option replaces its default unless it is absent or 0; the flag
    'high_threshold_set' tells whether [-c] was given with a value other
    than 0, and 'debug' is the switch. *)
Theorem snmp_check_values_thresholds (args : Namespace) :
  snmp_check_values args !! lit "warning_low"
  = Some (VInt (effective (args_wl args) (-1)))
  /\ snmp_check_values args !! lit "critical_low"
     = Some (VInt (effective (args_cl args) (-2)))
  /\ snmp_check_values args !! lit "warning_high"
     = Some (VInt (effective (args_warning args) 50000))
  /\ snmp_check_values args !! lit "critical_high"
     = Some (VInt (effective (args_critical args) 100000))
  /\ snmp_check_values args !! lit "high_threshold_set"
     = Some (VBool (arg_truthy (args_critical args)))
  /\ snmp_check_values args !! lit "debug" = Some (VBool (args_debug args)).
Proof.
  repeat split.
  - apply lookup_warning_low.
  - apply lookup_critical_low.
  - apply lookup_warning_high.
  - apply lookup_critical_high.
  - apply lookup_high_threshold_set.
  - apply lookup_debug.
Qed.

(** X2. The dictionary has the seventeen keys of its literal and no other,
    whatever the options; the model table, the fallback and the four
    strings are as the literal has them. *)
Theorem snmp_check_values_keys (args : Namespace) :
  (forall k : str, is_Some (snmp_check_values args !! k) <-> In k setting_keys)
  /\ (forall (model : str) (ceiling : Z),
         In (model, ceiling) model_table ->
         snmp_check_values args !! model = Some (VInt ceiling))
  /\ snmp_check_values args !! lit "UNKNOWN_MODEL" = Some (VInt 800000)
  /\ snmp_check_values args !! lit "snmp_community"
     = Some (VStr (args_SNMP_COMMUNITY args))
  /\ snmp_check_values args !! lit "snmp_host" = Some (VStr (args_HOST args))
  /\ snmp_check_values args !! lit "snmp_oid_asa_sessions"
     = Some (VStr snmp_oid_asa_sessions)
  /\ snmp_check_values args !! lit "snmp_oid_asa_model"
     = Some (VStr snmp_oid_asa_model).
Proof.
  split; [|split].
  - intros k. split.
    + intros Hs.
      destruct (decide (In k setting_keys)) as [Hin|Hn]; [exact Hin|].
      rewrite (lookup_no_setting args k Hn) in Hs.
      destruct Hs as [x Hx]. discriminate Hx.
    + intros Hin. cbn [setting_keys In] in Hin.
      repeat (destruct Hin as [<-|Hin];
              [first
                 [ rewrite lookup_warning_low | rewrite lookup_critical_low
                 | rewrite lookup_warning_high | rewrite lookup_critical_high
                 | rewrite lookup_high_threshold_set | rewrite lookup_debug
                 | erewrite lookup_literal;
                   [| vm_compute; reflexivity | key_ne ..] ];
               eexists; reflexivity|]).
      contradiction.
  - apply lookup_model_table.
  - repeat split.
    + apply lookup_UNKNOWN_MODEL.
    + apply lookup_snmp_community.
    + apply lookup_snmp_host.
    + apply lookup_snmp_oid_asa_sessions.
    + apply lookup_snmp_oid_asa_model.
Qed.

(* ===================================================================== *)
(** ** The parsing block *)
(* ===================================================================== *)

Lemma bind_lift {A B} (e : exn) (o : option A) (k : A -> py B) (st : state) :
  bind (lift e o) k st
  = match o with Some a => k a st | None => (Raised e, st) end.
Proof. destruct o; reflexivity. Qed.

(** The [try] body of lines 77 to 81 either yields the two fields or
    raises; it touches neither the dictionary nor the output. *)
Lemma parse_body (s m : bytes) (st : state) :
  parse s m st
  = match decode s with
    | Some ts =>
      match split_ws ts !! 3%nat with
      | Some tok =>
        match decode m with
        | Some tm =>
          match split_ws tm !! 3%nat with
          | Some field =>
            match split_on dquote field !! 1%nat with
            | Some model => (Normal (tok, model), st)
            | None => @error (str * str) parse_error_message st
            end
          | None => @error (str * str) parse_error_message st
          end
        | None => @error (str * str) parse_error_message st
        end
      | None => @error (str * str) parse_error_message st
      end
    | None => @error (str * str) parse_error_message st
    end.
Proof.
  unfold parse, try_except, index, parse_error_message.
  rewrite bind_lift. destruct (decode s) as [ts|]; [|reflexivity].
  rewrite bind_lift. destruct (split_ws ts !! 3%nat) as [tok|]; [|reflexivity].
  rewrite bind_lift. destruct (decode m) as [tm|]; [|reflexivity].
  rewrite bind_lift. destruct (split_ws tm !! 3%nat) as [f|]; [|reflexivity].
  rewrite bind_lift. destruct (split_on dquote f !! 1%nat); reflexivity.
Qed.

(** X3. Whatever the two answers are (invalid UTF-8, too few fields, no
    quoted string, anything), the parsing block never lets an exception
    escape: either it yields the two fields and leaves dictionary and
    output as they are, or it prints the one ERROR line with the hint
    about the OID and exits with 3. *)
Theorem parse_never_raises (s m : bytes) (st : state) :
  (exists tok model : str, parse s m st = (Normal (tok, model), st))
  \/ parse s m st
     = (SystemExit 3,
        State (dict st)
              (stdout st ++ [PrintCall [lit "ERROR:"; parse_error_message]])).
Proof.
  rewrite parse_body.
  destruct (decode s) as [ts|]; [|right; reflexivity].
  destruct (split_ws ts !! 3%nat) as [tok|]; [|right; reflexivity].
  destruct (decode m) as [tm|]; [|right; reflexivity].
  destruct (split_ws tm !! 3%nat) as [f|]; [|right; reflexivity].
  destruct (split_on dquote f !! 1%nat) as [model|]; [|right; reflexivity].
  left. exists tok, model. reflexivity.
Qed.

(** X4. An answer with fewer than four fields is a parse error. *)
Theorem parse_too_few_fields (s m : bytes) (st : state) (ts : str) :
  decode s = Some ts ->
  (length (split_ws ts) < 4)%nat ->
  parse s m st
  = (SystemExit 3,
     State (dict st)
           (stdout st ++ [PrintCall [lit "ERROR:"; parse_error_message]])).
Proof.
  intros Hd Hl. rewrite parse_body, Hd.
  rewrite (lookup_ge_None_2 (split_ws ts) 3) by lia. reflexivity.
Qed.

Lemma parse_too_few_fields_witness :
  decode [] = Some []
  /\ parse [] (model_answer "ASA5510") (initial sample_args)
     = (SystemExit 3,
        State (dict (initial sample_args))
              (stdout (initial sample_args)
               ++ [PrintCall [lit "ERROR:"; parse_error_message]])).
Proof.
  split; [reflexivity|].
  apply (parse_too_few_fields [] (model_answer "ASA5510")
           (initial sample_args) []); [reflexivity|cbn; lia].
Defined.

Lemma split_ws_aux_tokens (s cur : str) :
  no_space cur ->
  Forall (fun t => t <> [] /\ no_space t) (split_ws_aux cur s).
Proof.
  revert cur. induction s as [|c s IH]; intros cur Hc; cbn [split_ws_aux].
  - destruct cur as [|x cur]; [constructor|].
    constructor; [|constructor]. split.
    + intros E. apply (f_equal (@length N)) in E.
      rewrite length_rev in E. discriminate E.
    + unfold no_space. apply Forall_rev, Hc.
  - destruct (isspace c) eqn:Es.
    + destruct cur as [|x cur]; [apply IH; constructor|].
      constructor; [|apply IH; constructor]. split.
      * intros E. apply (f_equal (@length N)) in E.
        rewrite length_rev in E. discriminate E.
      * unfold no_space. apply Forall_rev, Hc.
    + apply IH. constructor; assumption.
Qed.

Lemma split_on_aux_chars (P : N -> Prop) (sep : N) (s cur : str) :
  Forall P cur -> Forall P s ->
  Forall (Forall P) (split_on_aux sep cur s).
Proof.
  revert cur. induction s as [|c s IH]; intros cur Hc Hs; cbn [split_on_aux].
  - constructor; [apply Forall_rev, Hc|constructor].
  - inversion Hs as [|? ? Hc0 Hs0]; subst.
    destruct (c =? sep)%N.
    + constructor; [apply Forall_rev, Hc|]. apply IH; [constructor|exact Hs0].
    + apply IH; [constructor; assumption|exact Hs0].
Qed.

Lemma split_on_aux_no_sep (sep : N) (s cur : str) :
  Forall (fun c => c <> sep) cur ->
  Forall (Forall (fun c => c <> sep)) (split_on_aux sep cur s).
Proof.
  revert cur. induction s as [|c s IH]; intros cur Hc; cbn [split_on_aux].
  - constructor; [apply Forall_rev, Hc|constructor].
  - destruct (N.eqb_spec c sep).
    + constructor; [apply Forall_rev, Hc|]. apply IH. constructor.
    + apply IH. constructor; assumption.
Qed.

(** X5. The two fields that the parsing block hands on are clean: the
    session token is not empty and holds no whitespace, and the model
    holds neither whitespace nor a double quote. *)
Theorem parse_fields_clean (s m : bytes) (st st' : state) (tok model : str) :
  parse s m st = (Normal (tok, model), st') ->
  word tok /\ no_space model /\ Forall (fun c => c <> dquote) model.
Proof.
  rewrite parse_body.
  destruct (decode s) as [ts|]; [|discriminate].
  destruct (split_ws ts !! 3%nat) as [tok0|] eqn:Et; [|discriminate].
  destruct (decode m) as [tm|]; [|discriminate].
  destruct (split_ws tm !! 3%nat) as [f|] eqn:Ef; [|discriminate].
  destruct (split_on dquote f !! 1%nat) as [model0|] eqn:Em; [|discriminate].
  intros E. injection E as -> -> _.
  pose proof (split_ws_aux_tokens ts [] (List.Forall_nil _)) as Hts.
  pose proof (split_ws_aux_tokens tm [] (List.Forall_nil _)) as Htm.
  rewrite Forall_lookup in Hts, Htm.
  destruct (Hts _ _ Et) as [Hne Hns].
  destruct (Htm _ _ Ef) as [_ Hfs].
  pose proof (split_on_aux_chars _ dquote f [] (List.Forall_nil _) Hfs) as Hc.
  pose proof (split_on_aux_no_sep dquote f [] (List.Forall_nil _)) as Hq.
  rewrite Forall_lookup in Hc, Hq.
  split; [split; [exact Hne|exact Hns]|].
  split; [exact (Hc _ _ Em)|exact (Hq _ _ Em)].
Qed.

Lemma parse_fields_clean_witness :
  parse (sessions_answer "1234") (model_answer "ASA5510") (initial sample_args)
  = (Normal (lit "1234", lit "ASA5510"), initial sample_args)
  /\ word (lit "1234")
  /\ no_space (lit "ASA5510") /\ Forall (fun c => c <> dquote) (lit "ASA5510").
Proof.
  split; [vm_compute; reflexivity|].
  apply (parse_fields_clean (sessions_answer "1234") (model_answer "ASA5510")
           (initial sample_args) (initial sample_args)).
  vm_compute. reflexivity.
Defined.

Lemma split_ws_aux_app (t s cur : str) :
  no_space t -> split_ws_aux cur (t ++ s) = split_ws_aux (rev t ++ cur) s.
Proof.
  revert cur. induction t as [|c t IH]; intros cur Ht; [reflexivity|].
  inversion Ht as [|? ? Hc Ht']; subst.
  cbn [app split_ws_aux rev]. rewrite Hc, IH by exact Ht'.
  rewrite <- app_assoc. reflexivity.
Qed.

(** A word followed by a whitespace character is the next field. *)
Lemma split_ws_word (t s : str) (c : N) :
  word t -> isspace c = true ->
  split_ws_aux [] (t ++ c :: s) = t :: split_ws_aux [] s.
Proof.
  intros [Hne Hns] Hc. rewrite split_ws_aux_app by exact Hns.
  rewrite app_nil_r. cbn [split_ws_aux]. rewrite Hc.
  destruct (rev t) as [|x r] eqn:E.
  - exfalso. apply Hne. apply (f_equal (@rev N)) in E.
    rewrite rev_involutive in E. exact E.
  - rewrite <- E, rev_involutive. reflexivity.
Qed.

Lemma split_on_aux_app (sep : N) (t s cur : str) :
  Forall (fun c => c <> sep) t ->
  split_on_aux sep cur (t ++ sep :: s)
  = rev (rev t ++ cur) :: split_on_aux sep [] s.
Proof.
  revert cur. induction t as [|c t IH]; intros cur Ht.
  - cbn [app split_on_aux rev]. rewrite N.eqb_refl. reflexivity.
  - inversion Ht as [|? ? Hc Ht']; subst.
    cbn [app split_on_aux rev].
    destruct (N.eqb_spec c sep); [contradiction|].
    rewrite IH by exact Ht'. rewrite <- app_assoc. reflexivity.
Qed.

(** The fourth field of a line of snmpwalk. *)
Lemma split_ws_answer_text (oid type value rest : str) :
  word oid -> word type -> word value ->
  split_ws (answer_text oid type value rest) !! 3%nat = Some value.
Proof.
  intros Ho Ht Hv. unfold split_ws, answer_text.
  change (lit " = ") with ([32; 61; 32]%N : str).
  change (lit " ") with ([32]%N : str).
  unfold newline. cbn [app].
  rewrite (split_ws_word oid _ 32%N Ho eq_refl).
  change (61 :: 32 :: type ++ 32 :: value ++ 10 :: rest)%N
    with (([61] : str) ++ 32 :: type ++ 32 :: value ++ 10 :: rest)%N.
  rewrite (split_ws_word [61%N] _ 32%N);
    [|split; [discriminate|repeat constructor]|reflexivity].
  rewrite (split_ws_word type _ 32%N Ht eq_refl).
  rewrite (split_ws_word value _ 10%N Hv eq_refl).
  reflexivity.
Qed.

Lemma word_quoted (model : str) :
  no_space model -> word (quoted model).
Proof.
  intros Hm. unfold quoted. split; [discriminate|].
  cbn [app]. constructor; [reflexivity|].
  apply Forall_app. split; [exact Hm|]. repeat constructor.
Qed.

Lemma split_on_quoted (model : str) :
  Forall (fun c => c <> dquote) model ->
  split_on dquote (quoted model) !! 1%nat = Some model.
Proof.
  intros Hm. unfold split_on, quoted. cbn [app split_on_aux].
  rewrite N.eqb_refl.
  rewrite (split_on_aux_app dquote model [] [] Hm).
  rewrite app_nil_r, rev_involutive. reflexivity.
Qed.

(** X6. Answers in the format of snmpwalk, one line [OID = TYPE: value] and
    whatever follows it: when the names, the count and the model are
    words (not empty, no whitespace) and the model holds no double quote,
    the parsing block yields exactly the count as it was printed and the
    model without its quotes. *)
Theorem parse_answer_text (s m : bytes) (st : state)
    (oid1 type1 tok rest1 oid2 type2 model rest2 : str) :
  decode s = Some (answer_text oid1 type1 tok rest1) ->
  decode m = Some (answer_text oid2 type2 (quoted model) rest2) ->
  word oid1 -> word type1 -> word tok ->
  word oid2 -> word type2 ->
  no_space model -> Forall (fun c => c <> dquote) model ->
  parse s m st = (Normal (tok, model), st).
Proof.
  intros Hs Hm Ho1 Ht1 Htok Ho2 Ht2 Hns Hq.
  rewrite parse_body, Hs, Hm.
  rewrite (split_ws_answer_text oid1 type1 tok rest1 Ho1 Ht1 Htok).
  rewrite (split_ws_answer_text oid2 type2 (quoted model) rest2 Ho2 Ht2
             (word_quoted model Hns)).
  rewrite (split_on_quoted model Hq). reflexivity.
Qed.

Lemma word_by_computation (t : str) :
  negb (match t with [] => true | _ => false end)
  && List.forallb (fun c => negb (isspace c)) t = true ->
  word t.
Proof.
  intros H. apply andb_prop in H as [H1 H2]. split.
  - intros ->. discriminate H1.
  - unfold no_space. rewrite List.forallb_forall in H2.
    apply List.Forall_forall. intros c Hc. specialize (H2 c Hc).
    destruct (isspace c); [discriminate H2|reflexivity].
Qed.

(** A walk of two lines for the counter and one line for the model. *)
Lemma parse_answer_text_witness :
  let s := sessions_answer "1234" ++ [x0a] ++ sessions_answer "99" ++ [x0a] in
  let m := model_answer "ASA5510" ++ [x0a] in
  parse s m (initial sample_args)
  = (Normal (lit "1234", lit "ASA5510"), initial sample_args).
Proof.
  intros s m.
  apply (parse_answer_text s m (initial sample_args)
           (lit "SNMPv2-SMI::enterprises.9.9.147.1.2.2.2.1.5.40.6")
           (lit "Gauge32:") (lit "1234")
           (lit "SNMPv2-SMI::enterprises.9.9.147.1.2.2.2.1.5.40.6 = Gauge32: 99"
            ++ newline)
           (lit "SNMPv2-SMI::mib-2.47.1.1.1.1.13.1") (lit "STRING:")
           (lit "ASA5510") []).
  - vm_compute. reflexivity.
  - vm_compute. reflexivity.
  - apply word_by_computation. vm_compute. reflexivity.
  - apply word_by_computation. vm_compute. reflexivity.
  - apply word_by_computation. vm_compute. reflexivity.
  - apply word_by_computation. vm_compute. reflexivity.
  - apply word_by_computation. vm_compute. reflexivity.
  - apply word_by_computation. vm_compute. reflexivity.
  - apply List.Forall_forall. intros c Hc. cbn in Hc.
    repeat (destruct Hc as [<-|Hc]; [discriminate|]). contradiction.
Defined.

(* ===================================================================== *)
(** ** Whole runs of [main] *)
(* ===================================================================== *)

(** Both polls answered: [poll] hands the two answers on and leaves the
    state as it is. *)
Lemma poll_success (w : world) (st : state) (community host : str)
    (s m : bytes) :
  dict st !! lit "snmp_community" = Some (VStr community) ->
  dict st !! lit "snmp_host" = Some (VStr host) ->
  dict st !! lit "snmp_oid_asa_sessions" = Some (VStr snmp_oid_asa_sessions) ->
  dict st !! lit "snmp_oid_asa_model" = Some (VStr snmp_oid_asa_model) ->
  w 0%nat (snmpwalk_argv community host snmp_oid_asa_sessions) = Some s ->
  w 1%nat (snmpwalk_argv community host snmp_oid_asa_model) = Some m ->
  poll w st = (Normal (s, m), st).
Proof.
  intros Hc Hh Hs Hm Hw0 Hw1.
  unfold poll, try_except.
  rewrite (bind_getitem _ _ _ _ Hc), (bind_getitem _ _ _ _ Hh),
    (bind_getitem _ _ _ _ Hs).
  unfold check_output at 1. cbn [mapM as_str mbind option_bind mret option_ret].
  rewrite bind_assoc, bind_lift_Some.
  fold (snmpwalk_argv community host snmp_oid_asa_sessions).
  rewrite Hw0, bind_lift_Some.
  rewrite (bind_getitem _ _ _ _ Hc), (bind_getitem _ _ _ _ Hh),
    (bind_getitem _ _ _ _ Hm).
  unfold check_output. cbn [mapM as_str mbind option_bind mret option_ret].
  rewrite bind_assoc, bind_lift_Some.
  fold (snmpwalk_argv community host snmp_oid_asa_model).
  rewrite Hw1, bind_lift_Some. reflexivity.
Qed.

(** A parse that yields its fields leaves the state as it is. *)
Lemma parse_Normal (s m : bytes) (st : state) (p : str * str) :
  fst (parse s m st) = Normal p -> parse s m st = (Normal p, st).
Proof.
  rewrite parse_body.
  destruct (decode s) as [ts|]; [|discriminate].
  destruct (split_ws ts !! 3%nat) as [tok|]; [|discriminate].
  destruct (decode m) as [tm|]; [|discriminate].
  destruct (split_ws tm !! 3%nat) as [f|]; [|discriminate].
  destruct (split_on dquote f !! 1%nat) as [model|]; [|discriminate].
  cbn [fst]. intros E. injection E as <-. reflexivity.
Qed.

(** The debug block prints the dump when 'debug' is on and nothing
    otherwise. *)
Lemma debug_output_run (st : state) (b : bool) (s : bytes) (tok : str)
    (m : bytes) (model : str) :
  dict st !! lit "debug" = Some (VBool b) ->
  debug_output s tok m model st
  = (Normal tt,
     State (dict st) (stdout st ++ debug_lines b (dict st) s tok m model)).
Proof.
  intros Hd. unfold debug_output. rewrite (bind_getitem _ _ _ _ Hd).
  destruct b; cbn [eq_bool Bool.eqb debug_lines].
  - reflexivity.
  - unfold ret. rewrite app_nil_r. destruct st; reflexivity.
Qed.

(** With both polls answered and the answers parsed, what is left of
    [check_asa_sessions] is the resolution of 'critical_high', the debug
    block and the classification. *)
Lemma check_asa_sessions_polled (w : world) (st : state)
    (community host : str) (s m : bytes) (tok model : str) :
  dict st !! lit "snmp_community" = Some (VStr community) ->
  dict st !! lit "snmp_host" = Some (VStr host) ->
  dict st !! lit "snmp_oid_asa_sessions" = Some (VStr snmp_oid_asa_sessions) ->
  dict st !! lit "snmp_oid_asa_model" = Some (VStr snmp_oid_asa_model) ->
  w 0%nat (snmpwalk_argv community host snmp_oid_asa_sessions) = Some s ->
  w 1%nat (snmpwalk_argv community host snmp_oid_asa_model) = Some m ->
  fst (parse s m st) = Normal (tok, model) ->
  check_asa_sessions w st
  = (resolve_critical_high model ;;;
     debug_output s tok m model ;;;
     evaluate tok (message tok model)) st.
Proof.
  intros Hc Hh Hs Hm Hw0 Hw1 Hp.
  unfold check_asa_sessions. unfold bind at 1.
  rewrite (poll_success w st community host s m Hc Hh Hs Hm Hw0 Hw1).
  cbn [fst snd]. unfold bind at 1.
  rewrite (parse_Normal s m st _ Hp). reflexivity.
Qed.

(** The same for [main]. *)
Lemma main_polled (args : Namespace) (w : world) (s m : bytes)
    (tok model : str) :
  w 0%nat (snmpwalk_argv (args_SNMP_COMMUNITY args) (args_HOST args)
                         snmp_oid_asa_sessions) = Some s ->
  w 1%nat (snmpwalk_argv (args_SNMP_COMMUNITY args) (args_HOST args)
                         snmp_oid_asa_model) = Some m ->
  fst (parse s m (initial args)) = Normal (tok, model) ->
  main args w
  = (resolve_critical_high model ;;;
     debug_output s tok m model ;;;
     evaluate tok (message tok model)) (initial args).
Proof.
  intros Hw0 Hw1 Hp. unfold main. fold (initial args).
  apply (check_asa_sessions_polled w (initial args)
           (args_SNMP_COMMUNITY args) (args_HOST args)); try assumption;
    cbn [initial dict].
  - apply lookup_snmp_community.
  - apply lookup_snmp_host.
  - apply lookup_snmp_oid_asa_sessions.
  - apply lookup_snmp_oid_asa_model.
Qed.

(** The classification on a dictionary [d] with integer thresholds, after
    the debug block: the verdict of the first band that holds. *)
Lemma debug_then_evaluate (d : gmap str value) (out : list output) (b : bool)
    (s m : bytes) (tok model : str) (n cl wl wh ch : Z) :
  d !! lit "debug" = Some (VBool b) ->
  py_int tok = Some n ->
  d !! lit "critical_low" = Some (VInt cl) ->
  d !! lit "warning_low" = Some (VInt wl) ->
  d !! lit "warning_high" = Some (VInt wh) ->
  d !! lit "critical_high" = Some (VInt ch) ->
  exists l : level,
    first_match (bands n cl wl wh ch) = Some l
    /\ (debug_output s tok m model ;;; evaluate tok (message tok model))
         (State d out)
       = (SystemExit (exit_code l),
          State d (out ++ debug_lines b d s tok m model
                   ++ [PrintCall [label l; message tok model]])).
Proof.
  intros Hd Hn Hcl Hwl Hwh Hch.
  destruct (some_band_holds n cl wl wh ch) as [l Hl].
  exists l. split; [exact Hl|].
  unfold bind at 1. rewrite (debug_output_run (State d out) b); [|exact Hd].
  cbn [dict stdout].
  rewrite (evaluate_first_match _ tok _ n cl wl wh ch Hn); try assumption.
  rewrite Hl, report_run. unfold printed. cbn [dict stdout].
  rewrite <- app_assoc. reflexivity.
Qed.

Lemma model_table_nonzero (model : str) (ceiling : Z) :
  In (model, ceiling) model_table -> ceiling <> 0.
Proof.
  intros Hin. cbn [model_table In] in Hin.
  repeat (destruct Hin as [E|Hin]; [injection E as <- <-; discriminate|]).
  contradiction.
Qed.

(* ===================================================================== *)
(** ** The dictionary after a run: claim C9 *)
(* ===================================================================== *)

(** After the resolution of 'critical_high' the run leaves the dictionary
    as it is. *)
Lemma debug_evaluate_same_dict (s m : bytes) (tok model msg : str)
    (st : state) :
  dict (snd ((debug_output s tok m model ;;; evaluate tok msg) st)) = dict st.
Proof.
  apply (keeps_bind (fun _ => True) (fun d d' => d' = d)).
  - intros a b c -> ->. reflexivity.
  - trivial.
  - apply keeps_debug_output; [reflexivity|intros a b c -> ->; reflexivity
                              |trivial].
  - intros _. apply keeps_evaluate; [reflexivity
                                    |intros a b c -> ->; reflexivity|trivial].
  - exact I.
Qed.

(** C9 as the code has it.  A run of [check_asa_sessions] changes no
    entry of the dictionary other than 'critical_high'; when
    'high_threshold_set' is True it changes no entry at all; and when
    [main] was given no effective [-c] and the device reports a model of
    the table (both polls answered, the answers parsed), the run ends
    with the dictionary that [main] built in which 'critical_high' has
    been overwritten with the ceiling of that model. *)
Theorem C9_only_critical_high_is_overwritten
    (w : world) (st : state) (args : Namespace) :
  (forall k : str,
      k <> lit "critical_high" ->
      dict (snd (check_asa_sessions w st)) !! k = dict st !! k)
  /\ (flag_set (dict st) -> dict (snd (check_asa_sessions w st)) = dict st)
  /\ (forall (s m : bytes) (tok model : str) (ceiling : Z),
         arg_truthy (args_critical args) = false ->
         w 0%nat (snmpwalk_argv (args_SNMP_COMMUNITY args) (args_HOST args)
                                snmp_oid_asa_sessions) = Some s ->
         w 1%nat (snmpwalk_argv (args_SNMP_COMMUNITY args) (args_HOST args)
                                snmp_oid_asa_model) = Some m ->
         fst (parse s m (initial args)) = Normal (tok, model) ->
         In (model, ceiling) model_table ->
         dict (snd (main args w))
         = <[lit "critical_high" := VInt ceiling]> (snmp_check_values args)).
Proof.
  split; [|split].
  - intros k Hk.
    apply (keeps_check_asa_sessions (fun _ => True)
             (agree_off (lit "critical_high"))); try exact I.
    + intros d j _. reflexivity.
    + intros a b c Hab Hbc j Hj. rewrite (Hbc j Hj). apply Hab, Hj.
    + trivial.
    + apply resolve_critical_high_agree_off.
    + exact Hk.
  - intros Hf.
    apply (keeps_check_asa_sessions flag_set (fun d d' => d' = d)).
    + reflexivity.
    + intros a b c -> ->. reflexivity.
    + intros d d' H ->. exact H.
    + apply resolve_critical_high_flag_set.
    + exact Hf.
  - intros s m tok model ceiling Hc Hw0 Hw1 Hp Hin.
    rewrite (main_polled args w s m tok model Hw0 Hw1 Hp).
    unfold bind at 1.
    rewrite (resolve_critical_high_known (initial args) model (VInt ceiling)).
    + rewrite debug_evaluate_same_dict. reflexivity.
    + cbn [initial dict]. rewrite lookup_high_threshold_set, Hc. reflexivity.
    + cbn [initial dict]. apply lookup_model_table, Hin.
    + cbn [truthy]. pose proof (model_table_nonzero model ceiling Hin) as Hz.
      destruct (Z.eqb_spec ceiling 0); [contradiction|reflexivity].
Qed.

(** A full run with the defaults and an ASA5505: 'warning_high' is as it
    was, and the dictionary at the end is the one [main] built with 10000
    under 'critical_high'. *)
Lemma C9_witness :
  lit "warning_high" <> lit "critical_high"
  /\ dict (snd (check_asa_sessions (device "5" "ASA5505")
                                   (initial sample_args)))
       !! lit "warning_high"
     = dict (initial sample_args) !! lit "warning_high"
  /\ dict (snd (main sample_args (device "5" "ASA5505")))
     = <[lit "critical_high" := VInt 10000]> (snmp_check_values sample_args).
Proof.
  pose proof (C9_only_critical_high_is_overwritten
                (device "5" "ASA5505") (initial sample_args) sample_args)
    as (Hframe & _ & Hset).
  split; [key_ne|]. split.
  - apply Hframe. key_ne.
  - apply (Hset (sessions_answer "5") (model_answer "ASA5505")
                (lit "5") (lit "ASA5505") 10000).
    + reflexivity.
    + reflexivity.
    + reflexivity.
    + vm_compute. reflexivity.
    + cbn [model_table In]. left. reflexivity.
Defined.

(** C9 as the specification words it fails: with the defaults and an
    ASA5505 the run starts with 'critical_high' at 100000 and ends with
    10000 stored under the same key of the same dictionary. *)
Lemma C9_counterexample :
  snmp_check_values sample_args !! lit "critical_high" = Some (VInt 100000)
  /\ dict (snd (main sample_args (device "5" "ASA5505"))) !! lit "critical_high"
     = Some (VInt 10000)
  /\ dict (snd (main sample_args (device "5" "ASA5505")))
     <> snmp_check_values sample_args.
Proof.
  split; [vm_compute; reflexivity|]. split; [vm_compute; reflexivity|].
  intros E.
  apply (f_equal (fun d => d !! lit "critical_high")) in E.
  vm_compute in E. discriminate E.
Qed.

(** X7. A run on a model of the table, without an effective [-c]: both polls
    are answered, the answers parse, the count is a number.  The ceiling
    of the model becomes 'critical_high', the other three thresholds are
    those of the command line, and the run ends with the verdict of the
    first band that holds: after the debug dump, when asked for, it
    prints that one status line and exits with its code. *)
Theorem main_table_model_run (args : Namespace) (w : world) (s m : bytes)
    (tok model : str) (n ceiling : Z) :
  arg_truthy (args_critical args) = false ->
  In (model, ceiling) model_table ->
  w 0%nat (snmpwalk_argv (args_SNMP_COMMUNITY args) (args_HOST args)
                         snmp_oid_asa_sessions) = Some s ->
  w 1%nat (snmpwalk_argv (args_SNMP_COMMUNITY args) (args_HOST args)
                         snmp_oid_asa_model) = Some m ->
  fst (parse s m (initial args)) = Normal (tok, model) ->
  py_int tok = Some n ->
  let d := <[lit "critical_high" := VInt ceiling]> (snmp_check_values args) in
  exists l : level,
    first_match (bands n (effective (args_cl args) (-2))
                       (effective (args_wl args) (-1))
                       (effective (args_warning args) 50000) ceiling) = Some l
    /\ main args w
       = (SystemExit (exit_code l),
          State d (debug_lines (args_debug args) d s tok m model
                   ++ [PrintCall [label l; message tok model]])).
Proof.
  intros Hc Hin Hw0 Hw1 Hp Hn d.
  rewrite (main_polled args w s m tok model Hw0 Hw1 Hp).
  unfold bind at 1.
  rewrite (resolve_critical_high_known (initial args) model (VInt ceiling)).
  - cbn [initial dict stdout]. fold d.
    destruct (debug_then_evaluate d [] (args_debug args) s m tok model n
                (effective (args_cl args) (-2)) (effective (args_wl args) (-1))
                (effective (args_warning args) 50000) ceiling)
      as [l [Hl Hr]]; try assumption.
    + unfold d. rewrite lookup_insert_ne by key_ne. apply lookup_debug.
    + unfold d. rewrite lookup_insert_ne by key_ne. apply lookup_critical_low.
    + unfold d. rewrite lookup_insert_ne by key_ne. apply lookup_warning_low.
    + unfold d. rewrite lookup_insert_ne by key_ne. apply lookup_warning_high.
    + unfold d. apply lookup_insert_eq.
    + exists l. split; [exact Hl|]. rewrite Hr. reflexivity.
  - cbn [initial dict]. rewrite lookup_high_threshold_set, Hc. reflexivity.
  - cbn [initial dict]. apply lookup_model_table, Hin.
  - cbn [truthy]. pose proof (model_table_nonzero model ceiling Hin) as Hz.
    destruct (Z.eqb_spec ceiling 0); [contradiction|reflexivity].
Qed.

(** An ASA5510 with 49999 sessions and the defaults: against the ceiling
    50000 of the table, and the warning threshold 50000, the first band
    that holds is the third one: OK. *)
Lemma main_table_model_run_witness :
  exists l : level,
    first_match (bands 49999 (-2) (-1) 50000 50000) = Some l
    /\ main sample_args (device "49999" "ASA5510")
       = (SystemExit (exit_code l),
          State (<[lit "critical_high" := VInt 50000]>
                   (snmp_check_values sample_args))
                [PrintCall [label l; message (lit "49999") (lit "ASA5510")]]).
Proof.
  apply (main_table_model_run sample_args (device "49999" "ASA5510")
           (sessions_answer "49999") (model_answer "ASA5510")
           (lit "49999") (lit "ASA5510") 49999 50000).
  - reflexivity.
  - cbn [model_table In]. right. left. reflexivity.
  - reflexivity.
  - reflexivity.
  - vm_compute. reflexivity.
  - vm_compute. reflexivity.
Defined.





(** X9. A model that is no key of the dictionary, without an effective [-c]:
    both polls are answered and the answers parse, and then the
    subscription of line 91 raises [KeyError].  Nothing is printed, the
    dictionary is as [main] built it, the exit status is 1: the fallback
    'UNKNOWN_MODEL' is not used. *)
Theorem main_unknown_model_KeyError (args : Namespace) (w : world)
    (s m : bytes) (tok model : str) :
  arg_truthy (args_critical args) = false ->
  ~ In model setting_keys ->
  w 0%nat (snmpwalk_argv (args_SNMP_COMMUNITY args) (args_HOST args)
                         snmp_oid_asa_sessions) = Some s ->
  w 1%nat (snmpwalk_argv (args_SNMP_COMMUNITY args) (args_HOST args)
                         snmp_oid_asa_model) = Some m ->
  fst (parse s m (initial args)) = Normal (tok, model) ->
  main args w = (Raised (KeyError model), initial args)
  /\ exit_status (fst (main args w)) = 1.
Proof.
  intros Hc Hk Hw0 Hw1 Hp.
  assert (E : main args w = (Raised (KeyError model), initial args)).
  { rewrite (main_polled args w s m tok model Hw0 Hw1 Hp).
    unfold bind at 1.
    rewrite (resolve_critical_high_absent (initial args) model).
    - reflexivity.
    - cbn [initial dict]. rewrite lookup_high_threshold_set, Hc. reflexivity.
    - cbn [initial dict]. apply lookup_no_setting, Hk. }
  split; [exact E|]. rewrite E. reflexivity.
Qed.

(** An ASA5525, which the table does not have, with the debug switch
    on: not even the dump is printed. *)
Lemma main_unknown_model_KeyError_witness :
  let args := {| args_SNMP_COMMUNITY := lit "public";
                 args_HOST := lit "10.0.0.1";
                 args_warning := Some 10;
                 args_critical := None;
                 args_wl := None;
                 args_cl := None;
                 args_debug := true |} in
  main args (device "7" "ASA5525")
  = (Raised (KeyError (lit "ASA5525")), initial args)
  /\ exit_status (fst (main args (device "7" "ASA5525"))) = 1.
Proof.
  intros args.
  apply (main_unknown_model_KeyError args (device "7" "ASA5525")
           (sessions_answer "7") (model_answer "ASA5525")
           (lit "7") (lit "ASA5525")).
  - reflexivity.
  - cbn [setting_keys In]. intros H.
    repeat (destruct H as [H|H]; [vm_compute in H; discriminate H|]).
    exact H.
  - reflexivity.
  - reflexivity.
  - vm_compute. reflexivity.
Defined.

(** X10. A count that [int] refuses, on a device whose 'critical_high' can be
    resolved (a model of the table, or an effective [-c]): the run gets
    as far as line 116 and ends there with an uncaught [ValueError]; all
    it has printed is the debug dump, when asked for, and no status
    line. *)
Theorem main_non_numeric_ValueError (args : Namespace) (w : world)
    (s m : bytes) (tok model : str) :
  (arg_truthy (args_critical args) = true
   \/ exists ceiling : Z, In (model, ceiling) model_table) ->
  w 0%nat (snmpwalk_argv (args_SNMP_COMMUNITY args) (args_HOST args)
                         snmp_oid_asa_sessions) = Some s ->
  w 1%nat (snmpwalk_argv (args_SNMP_COMMUNITY args) (args_HOST args)
                         snmp_oid_asa_model) = Some m ->
  fst (parse s m (initial args)) = Normal (tok, model) ->
  py_int tok = None ->
  fst (main args w) = Raised ValueError
  /\ exit_status (fst (main args w)) = 1
  /\ clean (stdout (snd (main args w)))
  /\ (args_debug args = false -> stdout (snd (main args w)) = []).
Proof.
  intros Hres Hw0 Hw1 Hp Hn.
  assert (Hev : forall st, evaluate tok (message tok model) st
                           = (Raised ValueError, st)).
  { intros st. unfold evaluate, int. rewrite Hn. reflexivity. }
  assert (Hdbg : forall d : gmap str value,
             d !! lit "debug" = Some (VBool (args_debug args)) ->
             (debug_output s tok m model ;;;
              evaluate tok (message tok model)) (State d [])
             = (Raised ValueError,
                State d (debug_lines (args_debug args) d s tok m model))).
  { intros d Hd. unfold bind at 1.
    rewrite (debug_output_run (State d []) (args_debug args)) by exact Hd.
    rewrite Hev. reflexivity. }
  assert (E : exists d : gmap str value,
             main args w
             = (Raised ValueError,
                State d (debug_lines (args_debug args) d s tok m model))).
  { rewrite (main_polled args w s m tok model Hw0 Hw1 Hp).
    unfold bind at 1.
    destruct (arg_truthy (args_critical args)) eqn:Hc.
    - rewrite (resolve_critical_high_explicit (initial args) model)
        by (cbn [initial dict]; rewrite lookup_high_threshold_set, Hc;
            reflexivity).
      exists (snmp_check_values args). unfold initial.
      apply Hdbg, lookup_debug.
    - destruct Hres as [Hres|[ceiling Hin]]; [discriminate|].
      rewrite (resolve_critical_high_known (initial args) model (VInt ceiling)).
      + cbn [initial dict stdout]. eexists. apply Hdbg.
        rewrite lookup_insert_ne by key_ne. apply lookup_debug.
      + cbn [initial dict]. rewrite lookup_high_threshold_set, Hc.
        reflexivity.
      + cbn [initial dict]. apply lookup_model_table, Hin.
      + cbn [truthy]. pose proof (model_table_nonzero model ceiling Hin) as Hz.
        destruct (Z.eqb_spec ceiling 0); [contradiction|reflexivity]. }
  destruct E as [d E]. rewrite E. cbn [fst snd stdout exit_status].
  repeat split.
  - destruct (args_debug args); reflexivity.
  - intros ->. reflexivity.
Qed.

(** An ASA5510 without the session counter: the fourth field of the
    answer is the word 'Such'. *)
Lemma main_non_numeric_ValueError_witness :
  fst (main sample_args device_without_counter) = Raised ValueError
  /\ exit_status (fst (main sample_args device_without_counter)) = 1
  /\ clean (stdout (snd (main sample_args device_without_counter)))
  /\ (args_debug sample_args = false ->
      stdout (snd (main sample_args device_without_counter)) = []).
Proof.
  apply (main_non_numeric_ValueError sample_args device_without_counter
           no_such_object (model_answer "ASA5510")
           (lit "Such") (lit "ASA5510")).
  - right. exists 50000. cbn [model_table In]. right. left. reflexivity.
  - reflexivity.
  - reflexivity.
  - vm_compute. reflexivity.
  - vm_compute. reflexivity.
Defined.

(* ===================================================================== *)
(** ** The classification on integer thresholds *)
(* ===================================================================== *)

(** X11. The verdict on a count that is not negative when both low thresholds
    are: the two high thresholds alone decide, whatever their order.
    Below 'warning_high' the count is OK; from there on it is WARNING
    below 'critical_high' and CRITICAL from 'critical_high' on. *)
Theorem evaluate_nonnegative_count
    (st : state) (tok msg : str) (n cl wl wh ch : Z) :
  py_int tok = Some n ->
  dict st !! lit "critical_low" = Some (VInt cl) ->
  dict st !! lit "warning_low" = Some (VInt wl) ->
  dict st !! lit "warning_high" = Some (VInt wh) ->
  dict st !! lit "critical_high" = Some (VInt ch) ->
  cl < 0 -> wl < 0 -> 0 <= n ->
  let l := if n <? wh then OK else if n <? ch then WARNING else CRITICAL in
  evaluate tok msg st = (SystemExit (exit_code l), printed st l msg).
Proof.
  intros Hn Hcl Hwl Hwh Hch Lcl Lwl Ln l.
  rewrite (evaluate_first_match st tok msg n cl wl wh ch Hn Hcl Hwl Hwh Hch).
  assert (E : first_match (bands n cl wl wh ch) = Some l).
  { unfold l. cbv [first_match bands]. cbn [List.find fst snd].
    destruct (Z.leb_spec n cl); [lia|].
    destruct (Z.ltb_spec cl n); [|lia].
    destruct (Z.leb_spec n wl); [lia|].
    destruct (Z.ltb_spec wl n); [|lia].
    cbn [andb].
    destruct (Z.ltb_spec n wh); [reflexivity|].
    destruct (Z.leb_spec wh n); [|lia].
    cbn [andb].
    destruct (Z.ltb_spec n ch); [reflexivity|].
    destruct (n >=? ch) eqn:G; [reflexivity|].
    rewrite Z.geb_leb in G. apply Z.leb_gt in G. lia. }
  rewrite E. apply report_run.
Qed.

(** The defaults of [main] with the high thresholds the wrong way
    round (warning 100, critical 10): 50 sessions are OK, for the third
    guard comes before the fifth. *)
Lemma evaluate_nonnegative_count_witness :
  let st := State (<[lit "critical_high" := VInt 10]>
                   (<[lit "warning_high" := VInt 100]>
                    (snmp_check_values sample_args))) [] in
  evaluate (lit "50") (lit "m") st = (SystemExit 0, printed st OK (lit "m")).
Proof.
  intros st.
  apply (evaluate_nonnegative_count st (lit "50") (lit "m") 50 (-2) (-1) 100 10);
    try (vm_compute; reflexivity); lia.
Defined.

(** X12. Thresholds in their intended order, critical_low <= warning_low <
    warning_high <= critical_high: the five bands split the integers, so
    exactly one of them holds for a count, and that one is the verdict;
    the order of the five statements then plays no part. *)
Theorem evaluate_ordered_thresholds
    (st : state) (tok msg : str) (n cl wl wh ch : Z) :
  py_int tok = Some n ->
  dict st !! lit "critical_low" = Some (VInt cl) ->
  dict st !! lit "warning_low" = Some (VInt wl) ->
  dict st !! lit "warning_high" = Some (VInt wh) ->
  dict st !! lit "critical_high" = Some (VInt ch) ->
  cl <= wl -> wl < wh -> wh <= ch ->
  exists l : level,
    List.filter fst (bands n cl wl wh ch) = [(true, l)]
    /\ evaluate tok msg st = (SystemExit (exit_code l), printed st l msg).
Proof.
  intros Hn Hcl Hwl Hwh Hch L1 L2 L3.
  rewrite (evaluate_first_match st tok msg n cl wl wh ch Hn Hcl Hwl Hwh Hch).
  cbv [first_match bands].
  cbn [List.filter List.find fst snd].
  destruct (Z.leb_spec n cl), (Z.ltb_spec cl n), (Z.leb_spec n wl),
    (Z.ltb_spec wl n), (Z.ltb_spec n wh), (Z.leb_spec wh n),
    (Z.ltb_spec n ch); try lia;
    destruct (n >=? ch) eqn:G;
    try (rewrite Z.geb_leb in G; first [apply Z.leb_gt in G|apply Z.leb_le in G];
         lia);
    cbn [andb fmap option_fmap option_map snd];
    eexists; (split; [reflexivity|apply report_run]).
Qed.

(** The defaults of [main] on an ASA5520 (ceiling 280000) and 60000
    sessions: the fourth band only. *)
Lemma evaluate_ordered_thresholds_witness :
  let st := State (<[lit "critical_high" := VInt 280000]>
                   (snmp_check_values sample_args)) [] in
  exists l : level,
    List.filter fst (bands 60000 (-2) (-1) 50000 280000) = [(true, l)]
    /\ evaluate (lit "60000") (lit "m") st
       = (SystemExit (exit_code l), printed st l (lit "m")).
Proof.
  intros st.
  apply (evaluate_ordered_thresholds st (lit "60000") (lit "m")
           60000 (-2) (-1) 50000 280000);
    try (vm_compute; reflexivity); lia.
Defined.

(** Run [evaluate] with what the context says about the count and the
    dictionary. *)
Ltac run_evaluate :=
  repeat first
    [ rewrite bind_assoc
    | rewrite bind_if
    | rewrite bind_ret
    | rewrite bind_lift_Some
    | rewrite bind_lift_None
    | match goal with
      | H : py_int _ = Some _ |- _ => rewrite (bind_int _ _ _ _ H)
      | H : dict _ !! _ = Some _ |- _ => rewrite (bind_getitem _ _ _ _ H)
      | H : dict _ !! _ = None |- _ =>
        rewrite (bind_getitem_missing _ _ _ H)
      | H : as_number _ = _ |- _ => rewrite H
      end ].

(** Whatever the dictionary holds, [evaluate] does not come back: it
    leaves through a reporter or through an exception. *)
Lemma evaluate_never_returns (tok msg : str) (st : state) :
  forall u : unit, fst (evaluate tok msg st) <> Normal u.
Proof.
  intros u.
  destruct (py_int tok) as [n|] eqn:Hn;
    [|unfold evaluate, int; rewrite Hn; discriminate].
  unfold evaluate, int_le, int_lt, int_ge, lt_int, le_int.
  change (@critical unit msg) with (@report unit CRITICAL msg).
  change (@warning unit msg) with (@report unit WARNING msg).
  change (@ok unit msg) with (@report unit OK msg).
  destruct (dict st !! lit "critical_low") as [vcl|] eqn:Hcl;
    [|run_evaluate; discriminate].
  destruct (as_number vcl) as [cl|] eqn:Ncl; [|run_evaluate; discriminate].
  destruct (dict st !! lit "warning_low") as [vwl|] eqn:Hwl;
    [destruct (as_number vwl) as [wl|] eqn:Nwl|];
  (destruct (dict st !! lit "warning_high") as [vwh|] eqn:Hwh;
    [destruct (as_number vwh) as [wh|] eqn:Nwh|]);
  (destruct (dict st !! lit "critical_high") as [vch|] eqn:Hch;
    [destruct (as_number vch) as [ch|] eqn:Nch|]);
  run_evaluate; rewrite ?bind_report;
  repeat match goal with
         | |- context [if ?c then _ else _] =>
           let E := fresh "E" in destruct c eqn:E
         end;
  cbn [fst]; try discriminate;
  exfalso;
  repeat match goal with
         | E : (_ <=? _) = _ |- _ =>
           first [apply Z.leb_le in E | apply Z.leb_gt in E]
         | E : (_ <? _) = _ |- _ =>
           first [apply Z.ltb_lt in E | apply Z.ltb_ge in E]
         | E : (_ >=? _) = _ |- _ => rewrite Z.geb_leb in E
         end; lia.
Qed.

(* ===================================================================== *)
(** ** How a run ends *)
(* ===================================================================== *)

Lemma bind_Normal_inv {A B} (m : py A) (k : A -> py B) (st : state) (b : B) :
  fst (bind m k st) = Normal b ->
  exists (a : A) (st1 : state),
    m st = (Normal a, st1) /\ fst (k a st1) = Normal b.
Proof.
  unfold bind. destruct (m st) as [[a|e|c] st1]; cbn [fst]; try discriminate.
  intros H. exists a, st1. split; [reflexivity|exact H].
Qed.

(** No run of [check_asa_sessions] ends in a normal return. *)
Lemma check_asa_sessions_leaves (w : world) (st : state) :
  forall u : unit, fst (check_asa_sessions w st) <> Normal u.
Proof.
  intros u H. unfold check_asa_sessions in H.
  apply bind_Normal_inv in H as (outputs & st1 & _ & H).
  apply bind_Normal_inv in H as (parsed & st2 & _ & H).
  apply bind_Normal_inv in H as (x & st3 & _ & H).
  apply bind_Normal_inv in H as (y & st4 & _ & H).
  exact (evaluate_never_returns _ _ _ _ H).
Qed.

(** X13. Started on a dictionary whose values are integers, booleans or
    strings (the values [main] stores), with whatever keys, also with
    keys missing, and whatever the device answers, [check_asa_sessions]
    never comes back to its caller: each run ends in [sys.exit] or in an
    exception.  No such run ends silently with exit status 0. *)
Theorem check_asa_sessions_never_returns (w : world) (st : state) :
  exists st' : state,
    (exists c : Z, check_asa_sessions w st = (SystemExit c, st'))
    \/ (exists e : exn, check_asa_sessions w st = (Raised e, st')).
Proof.
  pose proof (check_asa_sessions_leaves w st) as H.
  destruct (check_asa_sessions w st) as [[u|e|c] st']; exists st'.
  - exfalso. exact (H u eq_refl).
  - right. exists e. reflexivity.
  - left. exists c. reflexivity.
Qed.

Lemma last_word_no_exit {A} (S : list (str * Z)) (m : py A) :
  (forall st c, fst (m st) <> SystemExit c) -> last_word S m.
Proof.
  intros H st. specialize (H st).
  destruct (m st) as [[a|e|c] st']; try exact I.
  exfalso. eapply H. reflexivity.
Qed.

Lemma last_word_getitem (S : list (str * Z)) (k : str) :
  last_word S (getitem k).
Proof.
  apply last_word_no_exit. intros st c. unfold getitem.
  destruct (dict st !! k); discriminate.
Qed.

Lemma last_word_lift {A} (S : list (str * Z)) (e : exn) (o : option A) :
  last_word S (lift e o).
Proof. apply last_word_no_exit. intros st c. destruct o; discriminate. Qed.

Lemma last_word_ret {A} (S : list (str * Z)) (a : A) : last_word S (ret a).
Proof. intros st. exact I. Qed.

Lemma last_word_setitem (S : list (str * Z)) (k : str) (v : value) :
  last_word S (setitem k v).
Proof. intros st. exact I. Qed.

Lemma last_word_bind {A B} (S : list (str * Z)) (m : py A) (k : A -> py B) :
  last_word S m -> (forall a, last_word S (k a)) -> last_word S (bind m k).
Proof.
  intros Hm Hk st. unfold bind. specialize (Hm st).
  destruct (m st) as [[a|e|c] st']; try exact Hm. apply Hk.
Qed.

Lemma last_word_try_except {A} (S : list (str * Z)) (body handler : py A) :
  last_word S handler -> last_word S (try_except body handler).
Proof.
  intros Hh st. unfold try_except.
  destruct (body st) as [[a|e|c] st']; [exact I|apply Hh|apply Hh].
Qed.

Lemma last_word_if {A} (S : list (str * Z)) (c : bool) (m1 m2 : py A) :
  last_word S m1 -> last_word S m2 -> last_word S (if c then m1 else m2).
Proof. destruct c; trivial. Qed.

Lemma last_word_status {A} (S : list (str * Z)) (word msg : str) (code : Z) :
  In (word, code) S -> last_word S (print2 word msg ;;; @sys_exit A code).
Proof.
  intros Hin st. cbn. exists (stdout st), word, msg. auto.
Qed.

Lemma last_word_used {A} (msg : str) :
  last_word used_reporters (@ok A msg)
  /\ last_word used_reporters (@warning A msg)
  /\ last_word used_reporters (@critical A msg)
  /\ last_word used_reporters (@error A msg).
Proof. repeat split; apply last_word_status; cbn; auto 10. Qed.

Lemma last_word_debug_output (S : list (str * Z)) (s : bytes) (t : str)
    (m : bytes) (a : str) :
  last_word S (debug_output s t m a).
Proof.
  unfold debug_output. apply last_word_bind; [apply last_word_getitem|].
  intros flag. apply last_word_if; [|apply last_word_ret].
  intros st. exact I.
Qed.

Ltac last_word_step :=
  first [ apply last_word_used | apply last_word_getitem
        | apply last_word_lift | apply last_word_ret
        | apply last_word_setitem | apply last_word_debug_output
        | apply last_word_if
        | apply last_word_bind; [|intro] ].

Lemma last_word_check_asa_sessions (w : world) :
  last_word used_reporters (check_asa_sessions w).
Proof.
  unfold check_asa_sessions.
  apply last_word_bind; [|intro].
  { unfold poll. apply last_word_try_except. unfold str_add.
    repeat last_word_step. }
  apply last_word_bind; [|intro].
  { unfold parse. apply last_word_try_except. apply last_word_used. }
  apply last_word_bind; [|intro].
  { unfold resolve_critical_high. repeat last_word_step. }
  apply last_word_bind; [|intro].
  { apply last_word_debug_output. }
  unfold evaluate, int, int_le, int_lt, int_ge, lt_int, le_int.
  repeat last_word_step.
Qed.

(** X14. What the exit status of a run of [main] tells once [parse_args]
    has accepted the command line, for every Namespace it returns and
    every device (the exits of [argparse] itself, on a command line it
    rejects and after [--version] or [-h], come before and are not meant).
    The status is 0, 1, 2 or 3.  A status other
    than 1 comes from [sys.exit] after exactly one status line, the last
    thing printed: OK for 0, CRITICAL for 2, ERROR for 3; UNKNOWN is
    never reported.  The status 1 is either a WARNING line or an
    exception that nobody caught, after which no status line has been
    printed. *)
Theorem main_exit_status (args : Namespace) (w : world) :
  let r := main args w in
  0 <= exit_status (fst r) <= 3
  /\ (exit_status (fst r) <> 1 ->
      exists (pre : list output) (word msg : str),
        stdout (snd r) = pre ++ [PrintCall [word; msg]]
        /\ clean pre
        /\ In (word, exit_status (fst r))
              [(lit "OK:", 0); (lit "CRITICAL:", 2); (lit "ERROR:", 3)])
  /\ (exit_status (fst r) = 1 ->
      (exists e : exn, fst r = Raised e /\ clean (stdout (snd r)))
      \/ (exists (pre : list output) (msg : str),
             fst r = SystemExit 1
             /\ stdout (snd r) = pre ++ [PrintCall [lit "WARNING:"; msg]]
             /\ clean pre)).
Proof.
  intros r.
  pose proof (check_asa_sessions_leaves w (initial args)) as Hnr.
  pose proof (verdict_ok_check_asa_sessions w (initial args) eq_refl) as Hv.
  pose proof (last_word_check_asa_sessions w (initial args)) as Hl.
  unfold one_verdict in Hv.
  change (check_asa_sessions w (initial args)) with r in Hnr, Hv, Hl.
  clearbody r.
  destruct r as [[u|e|c] st']; cbn [fst snd exit_status] in *.
  - exfalso. exact (Hnr u eq_refl).
  - split; [lia|]. split; [intros H; contradiction|].
    intros _. left. exists e. split; [reflexivity|exact Hv].
  - destruct Hv as (pre & word & msg & Hout & _ & Hclean).
    destruct Hl as (pre' & word' & msg' & Hout' & Hin).
    rewrite Hout in Hout'. apply app_inj_tail in Hout' as [<- Hw].
    injection Hw as <- <-.
    cbn [used_reporters In] in Hin.
    destruct Hin as [Hin|[Hin|[Hin|[Hin|[]]]]]; injection Hin as <- <-.
    + split; [lia|]. split.
      * intros _. exists pre, (lit "OK:"), msg. cbn [In]. auto.
      * intros H. discriminate H.
    + split; [lia|]. split.
      * intros H. contradiction.
      * intros _. right. exists pre, msg. auto.
    + split; [lia|]. split.
      * intros _. exists pre, (lit "CRITICAL:"), msg. cbn [In]. auto.
      * intros H. discriminate H.
    + split; [lia|]. split.
      * intros _. exists pre, (lit "ERROR:"), msg. cbn [In]. auto 6.
      * intros H. discriminate H.
Qed.
